(** * HardwarePropertiesManagerService JNI bridge

    A shallow embedding of
    [services/core/jni/com_android_server_HardwarePropertiesManagerService.cpp]:
    the four native methods ([nativeInit], [nativeGetFanSpeeds],
    [nativeGetDeviceTemperatures], [nativeGetCpuUsages]) and the
    registration function, written as state-passing programs over a
    [World] that holds the two file-level globals, the JNI exception
    slot and the log.  Memory errors of the C++ code (a write outside
    the stack buffer [values], a read of an indeterminate cell, an
    index past the end of a [hidl_vec]) are explicit [Crash] outcomes,
    so that "the call returns" is a statement one has to prove. *)

From Stdlib Require Import ZArith Lia String PrimFloat.
From stdpp Require Import base tactics option list strings.

Local Open Scope string_scope.
Local Open Scope list_scope.
Local Open Scope Z_scope.

(* ------------------------------------------------------------------ *)
(** ** Data of the thermal HAL, version 1.0 *)

(** [jfloat] is the C [float] of the JNI headers.  The code only ever
    copies such values and does no arithmetic on them, so they are
    carried as primitive floats (every binary32 value is one) and
    compared with Leibniz equality. *)
Definition jfloat := float.

(** [jint] and [jlong] are carried as integers.  [as_jlong x] is what a
    constructor of signature [(JJ)V] receives when the 64-bit counter
    [x] is passed to it through the variadic [NewObject]: the same 64
    bits, read as a signed value.  It is the identity on the range of
    [jlong] and wraps an unsigned counter above [2^63 - 1]. *)
Definition jint := Z.
Definition jlong := Z.

Definition as_jlong (x : Z) : jlong :=
  let m := x mod 2 ^ 64 in
  if m <? 2 ^ 63 then m else m - 2 ^ 64.

(** A [hidl_vec<T>] is a length-prefixed array; [operator[]] does not
    check its index.  Sizes and indices are [nat]: a vector that
    crossed the binder transport is far shorter than [2^31]. *)
Abbreviation hidl_vec := list (only parsing).

(** Modelled from the spec: the HAL's [types.hal] is not part of the
    sources.  A cooling device reading carries an identifier and its
    current speed value. *)
Record CoolingDevice := mkCoolingDevice {
  cd_name : string;
  cd_currentValue : jfloat
}.

(** Modelled from the spec: a temperature reading carries a sensor type
    tag (an [int32_t]-backed enumeration, read with
    [static_cast<int>]), the current value and three thresholds. *)
Record Temperature := mkTemperature {
  t_type : Z;
  t_name : string;
  t_currentValue : jfloat;
  t_throttlingThreshold : jfloat;
  t_shutdownThreshold : jfloat;
  t_vrThrottlingThreshold : jfloat
}.

(** Modelled from the spec: a CPU usage reading carries an online flag,
    the active time and the total time (64-bit counters). *)
Record CpuUsage := mkCpuUsage {
  cu_name : string;
  cu_active : Z;
  cu_total : Z;
  cu_isOnline : bool
}.

Inductive ThermalStatusCode := SUCCESS | FAILURE.

Record ThermalStatus := mkThermalStatus {
  code : ThermalStatusCode;
  debugMessage : string
}.

Definition is_SUCCESS (c : ThermalStatusCode) : bool :=
  match c with SUCCESS => true | FAILURE => false end.

(** [hardware::Status]: the transport status of a call; [EX_NONE] is 0. *)
Record Status := mkStatus { exceptionCode : Z }.

Definition isOk (s : Status) : bool := exceptionCode s =? 0.

(** What one synchronous HIDL call does, seen from the client: either
    the reply arrives and the proxy runs the callback once with it
    (the returned [Status] is ok), or the transport fails, the callback
    is not run and the returned [Status] carries the exception code. *)
Inductive HidlReply (A : Type) :=
| Delivered (status : ThermalStatus) (payload : hidl_vec A)
| Undelivered (ex : Z).
Arguments Delivered {A} status payload.
Arguments Undelivered {A} ex.

(** The remote [IThermal] object, as what it answers to each of the
    three queries at present. *)
Record IThermal := mkIThermal {
  getCoolingDevices_reply : HidlReply CoolingDevice;
  getTemperatures_reply : HidlReply Temperature;
  getCpuUsages_reply : HidlReply CpuUsage
}.

(** A non-null [sp<IThermal>] names a proxy; the proxy is looked up in
    the world when a call is made through it. *)
Definition IThermalProxy := nat.

(* ------------------------------------------------------------------ *)
(** ** The managed runtime as seen through JNI *)

(** A [jclass] is [NULL] or a reference to the class of that name; a
    [jmethodID] is [NULL] or names a method of a class. *)
Definition jclass := option string.

Record MethodRef := mkMethodRef {
  m_class : string;
  m_name : string;
  m_sig : string
}.

Definition jmethodID := option MethodRef.

(** References into the Java heap; a [jobject] is [NULL] or a reference. *)
Definition ref := nat.
Definition jobject := option ref.
Definition jfloatArray := jobject.
Definition jobjectArray := jobject.

(** Modelled from the spec: [android.os.CpuUsageInfo] is not part of
    the sources.  Its two-argument constructor stores the (active,
    total) pair it is given. *)
Inductive JObject :=
| FloatArray (elems : list jfloat)
| ObjectArray (elemClass : jclass) (elems : list jobject)
| CpuUsageInfoObj (cls : jclass) (mActive mTotal : jlong).

Inductive jthrowable :=
| ArrayIndexOutOfBoundsException
| ArrayStoreException
| NoClassDefFoundError
| NoSuchMethodError.

Inductive LogArg := ArgS (s : string) | ArgD (d : Z).

(** One [ALOGE] call: the tag, the format string and its arguments. *)
Record LogLine := mkLogLine {
  ll_tag : string;
  ll_fmt : string;
  ll_args : list LogArg
}.

Definition LOG_TAG : string := "HardwarePropertiesManagerService-JNI".

(** The two file-level globals of the bridge. *)
Record CpuUsageInfoClassInfo := mkClassInfo {
  clazz : jclass;
  initMethod : jmethodID
}.

Record World := mkWorld {
  (* outside the process *)
  hwservicemanager : string -> option IThermalProxy;
  remote : IThermalProxy -> IThermal;
  (* the runtime *)
  classes : string -> option (list (string * string));
  registerNatives : string -> Z;
  heap : list JObject;
  pendingException : option jthrowable;
  logcat : list LogLine;
  (* the bridge's statics *)
  gCpuUsageInfoClassInfo : CpuUsageInfoClassInfo;
  gThermalModule : option IThermalProxy
}.

Definition set_heap (h : list JObject) (w : World) : World :=
  mkWorld (hwservicemanager w) (remote w) (classes w) (registerNatives w)
          h (pendingException w) (logcat w)
          (gCpuUsageInfoClassInfo w) (gThermalModule w).

Definition set_pendingException (e : option jthrowable) (w : World) : World :=
  mkWorld (hwservicemanager w) (remote w) (classes w) (registerNatives w)
          (heap w) e (logcat w)
          (gCpuUsageInfoClassInfo w) (gThermalModule w).

Definition set_logcat (l : list LogLine) (w : World) : World :=
  mkWorld (hwservicemanager w) (remote w) (classes w) (registerNatives w)
          (heap w) (pendingException w) l
          (gCpuUsageInfoClassInfo w) (gThermalModule w).

Definition set_gCpuUsageInfoClassInfo (c : CpuUsageInfoClassInfo) (w : World)
  : World :=
  mkWorld (hwservicemanager w) (remote w) (classes w) (registerNatives w)
          (heap w) (pendingException w) (logcat w)
          c (gThermalModule w).

Definition set_gThermalModule (m : option IThermalProxy) (w : World) : World :=
  mkWorld (hwservicemanager w) (remote w) (classes w) (registerNatives w)
          (heap w) (pendingException w) (logcat w)
          (gCpuUsageInfoClassInfo w) m.

(* ------------------------------------------------------------------ *)
(** ** Programs: state passing with crashes *)

Inductive Fault :=
| StackBufferOverflow     (* a store outside a C array *)
| IndeterminateRead       (* a load of a C array cell never stored to *)
| VecIndexOutOfRange      (* hidl_vec::operator[] past the end *)
| NullReference           (* a JNI call on a NULL or ill-typed array *)
| Abort.                  (* LOG_ALWAYS_FATAL *)

Inductive Outcome (A : Type) :=
| Done (a : A) (w : World)
| Crash (f : Fault).
Arguments Done {A} a w.
Arguments Crash {A} f.

Definition M (A : Type) : Type := World -> Outcome A.

#[global] Instance M_ret : MRet M := fun A a w => Done a w.

#[global] Instance M_bind : MBind M := fun A B k m w =>
  match m w with
  | Done a w' => k a w'
  | Crash f => Crash f
  end.

Definition crash {A} (f : Fault) : M A := fun _ => Crash f.
Definition gets {A} (proj : World -> A) : M A := fun w => Done (proj w) w.
Definition modify (f : World -> World) : M unit := fun w => Done tt (f w).

(** [when c m] is the C statement [if (c) { m }]. *)
Definition when (c : bool) (m : M unit) : M unit :=
  if c then m else mret tt.

(** [for (size_t i = lo; i < lo + n; ++i) body], with the variables the
    body assigns to threaded through as [s]. *)
Fixpoint for_loop {St : Type} (lo n : nat) (body : nat -> St -> M St)
    (s : St) : M St :=
  match n with
  | O => mret s
  | S n' => s' ← body lo s; for_loop (S lo) n' body s'
  end.

Definition ALOGE (fmt : string) (args : list LogArg) : M unit :=
  modify (fun w => set_logcat (logcat w ++ [mkLogLine LOG_TAG fmt args]) w).

(** *** C arrays with automatic storage and [hidl_vec] indexing *)

Abbreviation c_array A := (list (option A)) (only parsing).

Definition c_array_new {A} (n : nat) : c_array A := replicate n None.

Definition c_store {A} (a : c_array A) (i : nat) (v : A) : M (c_array A) :=
  if decide (i < length a)%nat then mret (<[i := Some v]> a)
  else crash StackBufferOverflow.

(** The first [n] cells of [a], as [SetFloatArrayRegion] reads them. *)
Fixpoint c_load_region {A} (a : c_array A) (n : nat) {struct n}
  : M (list A) :=
  match n with
  | O => mret []
  | S n' =>
      match a with
      | [] => crash StackBufferOverflow
      | None :: _ => crash IndeterminateRead
      | Some v :: a' => vs ← c_load_region a' n'; mret (v :: vs)
      end
  end.

Definition vec_at {A} (v : hidl_vec A) (i : nat) : M A :=
  match v !! i with
  | Some x => mret x
  | None => crash VecIndexOutOfRange
  end.

(** *** JNI functions *)

(** Allocation appends to the heap; the heap is unbounded, so the
    [OutOfMemoryError] of a real runtime is outside this model. *)
Definition alloc (o : JObject) : M ref := fun w =>
  Done (length (heap w)) (set_heap (heap w ++ [o]) w).

Definition Throw (e : jthrowable) : M unit :=
  modify (fun w =>
    match pendingException w with
    | None => set_pendingException (Some e) w
    | Some _ => w
    end).

Definition NewFloatArray (n : nat) : M jfloatArray :=
  r ← alloc (FloatArray (replicate n 0%float)); mret (Some r).

Definition SetFloatArrayRegion (array : jfloatArray) (start len : nat)
    (buf : c_array jfloat) : M unit :=
  match array with
  | None => crash NullReference
  | Some r =>
      h ← gets heap;
      match h !! r with
      | Some (FloatArray elems) =>
          if decide (start + len <= length elems)%nat then
            vs ← c_load_region buf len;
            modify (set_heap
              (<[r := FloatArray (take start elems ++ vs
                                  ++ drop (start + len) elems)]> h))
          else Throw ArrayIndexOutOfBoundsException
      | _ => crash NullReference
      end
  end.

(** The element class is recorded as it is given.  JNI requires it to
    be non-NULL; a NULL class is not refused here, so what this function
    returns for one says nothing about a real runtime.  [clazz] is NULL
    only before registration; no property below that speaks of the
    class descriptor relies on that case. *)
Definition NewObjectArray (n : nat) (elementClass : jclass)
    (initialElement : jobject) : M jobjectArray :=
  r ← alloc (ObjectArray elementClass (replicate n initialElement));
  mret (Some r).

(** [NewObject(clazz, initMethod, active, total)] for the [(JJ)V]
    constructor: the method ID is dereferenced, and the two variadic
    arguments are read as [jlong]s. *)
Definition NewObject (cls : jclass) (methodID : jmethodID) (a1 a2 : Z)
  : M jobject :=
  match methodID with
  | None => crash NullReference
  | Some _ =>
      r ← alloc (CpuUsageInfoObj cls (as_jlong a1)
                                 (as_jlong a2));
      mret (Some r)
  end.

Definition class_of (h : list JObject) (o : jobject) : option jclass :=
  match o with
  | None => None
  | Some r =>
      match h !! r with
      | Some (CpuUsageInfoObj cls _ _) => Some cls
      | _ => None
      end
  end.

#[global] Instance jclass_eq_dec : EqDecision jclass.
Proof. unfold jclass. solve_decision. Defined.

Definition SetObjectArrayElement (array : jobjectArray) (index : nat)
    (value : jobject) : M unit :=
  match array with
  | None => crash NullReference
  | Some r =>
      h ← gets heap;
      match h !! r with
      | Some (ObjectArray ec elems) =>
          if decide (index < length elems)%nat then
            if decide (value = None \/ class_of h value = Some ec) then
              modify (set_heap (<[r := ObjectArray ec (<[index := value]> elems)]> h))
            else Throw ArrayStoreException
          else Throw ArrayIndexOutOfBoundsException
      | _ => crash NullReference
      end
  end.

Definition FindClass (name : string) : M jclass :=
  cs ← gets classes;
  match cs name with
  | Some _ => mret (Some name)
  | None => Throw NoClassDefFoundError;; mret None
  end.

Definition GetMethodID (cls : jclass) (name sig : string) : M jmethodID :=
  match cls with
  | None => crash NullReference
  | Some c =>
      cs ← gets classes;
      match cs c with
      | Some methods =>
          if decide ((name, sig) ∈ methods)
          then mret (Some (mkMethodRef c name sig))
          else Throw NoSuchMethodError;; mret None
      | None => crash NullReference
      end
  end.

(** The two helpers of [core_jni_helpers.h]: a [NULL] result is fatal. *)
Definition MakeGlobalRefOrDie (o : jclass) : M jclass :=
  match o with
  | None => crash Abort
  | Some _ => mret o
  end.

Definition GetMethodIDOrDie (cls : jclass) (name sig : string)
  : M jmethodID :=
  res ← GetMethodID cls name sig;
  match res with
  | None => crash Abort
  | Some _ => mret res
  end.

(** *** Calls through [sp<IThermal>] *)

(** [self->method(_hidl_cb)]: the proxy forwards the call; when the
    reply arrives it runs [_hidl_cb] on it, synchronously and once.  The
    callback is a C++ lambda that captures a local by reference; that
    local is the [s] threaded through here. *)
Definition hidl_call {A St : Type} (method : IThermal -> HidlReply A)
    (self : option IThermalProxy)
    (_hidl_cb : ThermalStatus -> hidl_vec A -> St -> M St) (s : St)
  : M (Status * St) :=
  match self with
  | None => crash NullReference
  | Some p =>
      svc ← gets (fun w => remote w p);
      match method svc with
      | Delivered status payload =>
          s' ← _hidl_cb status payload s; mret (mkStatus 0, s')
      | Undelivered ex => mret (mkStatus ex, s)
      end
  end.

Definition getCoolingDevices {St} := @hidl_call CoolingDevice St getCoolingDevices_reply.
Definition getTemperatures {St} := @hidl_call Temperature St getTemperatures_reply.
Definition getCpuUsages {St} := @hidl_call CpuUsage St getCpuUsages_reply.

Definition getService (name : string) : M (option IThermalProxy) :=
  gets (fun w => hwservicemanager w name).

(* ------------------------------------------------------------------ *)
(** ** The bridge *)

Definition TEMPERATURE_CURRENT : jint := 0.
Definition TEMPERATURE_THROTTLING : jint := 1.
Definition TEMPERATURE_SHUTDOWN : jint := 2.
Definition TEMPERATURE_THROTTLING_BELOW_VR_MIN : jint := 3.

Definition nativeInit : M unit :=
  m ← gets gThermalModule;
  when (bool_decide (m = None))
       (s ← getService "thermal"; modify (set_gThermalModule s));;
  m ← gets gThermalModule;
  when (bool_decide (m = None))
       (ALOGE "Unable to get Thermal service." []).

Definition nativeGetFanSpeeds : M jfloatArray :=
  m ← gets gThermalModule;
  if bool_decide (m = None) then
    ALOGE "Couldn't get fan speeds because of HAL error." [];;
    NewFloatArray 0
  else
    self ← gets gThermalModule;
    '(status, list) ← getCoolingDevices self
        (fun status devices list =>
           if is_SUCCESS (code status) then mret devices
           else
             ALOGE "Couldn't get fan speeds because of HAL error: %s"
                   [ArgS (debugMessage status)];;
             mret list)
        [];
    when (negb (isOk status))
         (ALOGE "getCoolingDevices failed status: %d"
                [ArgD (exceptionCode status)]);;
    values ← for_loop 0 (length list)
        (fun i values =>
           d ← vec_at list i;
           c_store values i (cd_currentValue d))
        (c_array_new (length list));
    fanSpeeds ← NewFloatArray (length list);
    SetFloatArrayRegion fanSpeeds 0 (length list) values;;
    mret fanSpeeds.

(** The body of the copy loop of [nativeGetDeviceTemperatures]; the
    variables it assigns to are [values] and [length]. *)
Definition temperatures_body (list : hidl_vec Temperature) (type source : jint)
    (i : nat) (st : c_array jfloat * nat) : M (c_array jfloat * nat) :=
  let '(values, length) := st in
  t ← vec_at list i;
  if t_type t =? type then
    if source =? TEMPERATURE_CURRENT then
      values ← c_store values length (t_currentValue t);
      mret (values, S length)
    else if source =? TEMPERATURE_THROTTLING then
      values ← c_store values length (t_throttlingThreshold t);
      mret (values, S length)
    else if source =? TEMPERATURE_SHUTDOWN then
      values ← c_store values length (t_shutdownThreshold t);
      mret (values, S length)
    else if source =? TEMPERATURE_THROTTLING_BELOW_VR_MIN then
      values ← c_store values length (t_vrThrottlingThreshold t);
      mret (values, S length)
    else mret (values, length)
  else mret (values, length).

Definition nativeGetDeviceTemperatures (type source : jint) : M jfloatArray :=
  m ← gets gThermalModule;
  if bool_decide (m = None) then
    ALOGE "Couldn't get device temperatures because of HAL error." [];;
    NewFloatArray 0
  else
    self ← gets gThermalModule;
    '(status, list) ← getTemperatures self
        (fun status temperatures list =>
           if is_SUCCESS (code status) then mret temperatures
           else
             ALOGE "Couldn't get temperatures because of HAL error: %s"
                   [ArgS (debugMessage status)];;
             mret list)
        [];
    when (negb (isOk status))
         (ALOGE "getDeviceTemperatures failed status: %d"
                [ArgD (exceptionCode status)]);;
    '(values, length) ← for_loop 0 (length list)
        (temperatures_body list type source)
        (c_array_new (length list), O);
    deviceTemps ← NewFloatArray length;
    SetFloatArrayRegion deviceTemps 0 length values;;
    mret deviceTemps.

Definition nativeGetCpuUsages : M jobjectArray :=
  m ← gets gThermalModule;
  info ← gets gCpuUsageInfoClassInfo;
  if bool_decide (m = None) || bool_decide (initMethod info = None) then
    ALOGE "Couldn't get CPU usages because of HAL error." [];;
    info ← gets gCpuUsageInfoClassInfo;
    NewObjectArray 0 (clazz info) None
  else
    self ← gets gThermalModule;
    '(status, list) ← getCpuUsages self
        (fun status cpuUsages list =>
           if is_SUCCESS (code status) then mret cpuUsages
           else
             ALOGE "Couldn't get CPU usages because of HAL error: %s"
                   [ArgS (debugMessage status)];;
             mret list)
        [];
    when (negb (isOk status))
         (ALOGE "getCpuUsages failed status: %d"
                [ArgD (exceptionCode status)]);;
    info ← gets gCpuUsageInfoClassInfo;
    cpuUsages ← NewObjectArray (length list) (clazz info) None;
    for_loop 0 (length list)
        (fun i (_ : unit) =>
           c ← vec_at list i;
           when (cu_isOnline c)
                (info ← gets gCpuUsageInfoClassInfo;
                 cpuUsage ← NewObject (clazz info) (initMethod info)
                                      (cu_active c) (cu_total c);
                 SetObjectArrayElement cpuUsages i cpuUsage))
        tt;;
    mret cpuUsages.

Inductive NativeFn :=
| fn_nativeInit
| fn_nativeGetFanSpeeds
| fn_nativeGetDeviceTemperatures
| fn_nativeGetCpuUsages.

Record JNINativeMethod := mkJNINativeMethod {
  nm_name : string;
  nm_signature : string;
  nm_fnPtr : NativeFn
}.

Definition gHardwarePropertiesManagerServiceMethods : list JNINativeMethod :=
  [ mkJNINativeMethod "nativeInit" "()V" fn_nativeInit;
    mkJNINativeMethod "nativeGetFanSpeeds" "()[F" fn_nativeGetFanSpeeds;
    mkJNINativeMethod "nativeGetDeviceTemperatures" "(II)[F"
                      fn_nativeGetDeviceTemperatures;
    mkJNINativeMethod "nativeGetCpuUsages" "()[Landroid/os/CpuUsageInfo;"
                      fn_nativeGetCpuUsages ].

Definition jniRegisterNativeMethods (className : string)
    (methods : list JNINativeMethod) : M Z :=
  gets (fun w => registerNatives w className).

Definition register_android_server_HardwarePropertiesManagerService : M Z :=
  modify (set_gThermalModule None);;
  res ← jniRegisterNativeMethods
          "com/android/server/HardwarePropertiesManagerService"
          gHardwarePropertiesManagerServiceMethods;
  cls ← FindClass "android/os/CpuUsageInfo";
  g ← MakeGlobalRefOrDie cls;
  modify (fun w => set_gCpuUsageInfoClassInfo
                     (mkClassInfo g (initMethod (gCpuUsageInfoClassInfo w))) w);;
  info ← gets gCpuUsageInfoClassInfo;
  mid ← GetMethodIDOrDie (clazz info) "<init>" "(JJ)V";
  modify (fun w => set_gCpuUsageInfoClassInfo
                     (mkClassInfo (clazz (gCpuUsageInfoClassInfo w)) mid) w);;
  mret res.

(* ------------------------------------------------------------------ *)
(** ** What the specification says, as functions *)

(** The vector the capturing callback leaves in the local [list]. *)
Definition received {A} (r : HidlReply A) : hidl_vec A :=
  match r with
  | Delivered status payload =>
      if is_SUCCESS (code status) then payload else []
  | Undelivered _ => []
  end.

(** The [Status] the call returns. *)
Definition status_of {A} (r : HidlReply A) : Status :=
  match r with
  | Delivered _ _ => mkStatus 0
  | Undelivered ex => mkStatus ex
  end.

(** The remote call "reports success": the reply arrived and its
    [ThermalStatus] code is [SUCCESS]. *)
Definition succeeded {A} (r : HidlReply A) : bool :=
  match r with
  | Delivered status _ => is_SUCCESS (code status)
  | Undelivered _ => false
  end.

(** The lines one call logs: [fmt_cb] from inside the callback,
    [fmt_st] for a transport status that is not ok. *)
Definition call_log {A} (fmt_cb fmt_st : string) (r : HidlReply A)
  : list LogLine :=
  match r with
  | Delivered status _ =>
      if is_SUCCESS (code status) then []
      else [mkLogLine LOG_TAG fmt_cb [ArgS (debugMessage status)]]
  | Undelivered ex =>
      if ex =? 0 then [] else [mkLogLine LOG_TAG fmt_st [ArgD ex]]
  end.

Definition fan_speeds_spec (devices : list CoolingDevice) : list jfloat :=
  map cd_currentValue devices.

(** The selector a source code stands for, if any. *)
Definition selector (source : jint) : option (Temperature -> jfloat) :=
  match source with
  | 0 => Some t_currentValue
  | 1 => Some t_throttlingThreshold
  | 2 => Some t_shutdownThreshold
  | 3 => Some t_vrThrottlingThreshold
  | _ => None
  end.

Definition has_type (type : jint) (t : Temperature) : bool := t_type t =? type.

Definition device_temperatures_spec (type source : jint)
    (temps : list Temperature) : list jfloat :=
  match selector source with
  | Some f => map f (List.filter (has_type type) temps)
  | None => []
  end.

(** What one reading contributes to the output. *)
Definition picked (type source : jint) (t : Temperature) : list jfloat :=
  if has_type type t then
    match selector source with
    | Some f => [f t]
    | None => []
    end
  else [].

(** The caller-side view of a CPU usage object. *)
Record CpuUsageInfo := mkCpuUsageInfo { mActive : jlong; mTotal : jlong }.

(** One slot per core: an object for an online core, [null] otherwise. *)
Definition cpu_usages_spec (usages : list CpuUsage)
  : list (option CpuUsageInfo) :=
  map (fun c => if cu_isOnline c
                then Some (mkCpuUsageInfo (as_jlong (cu_active c))
                                          (as_jlong (cu_total c)))
                else None) usages.

(** *** Reading results back from the heap *)

Definition read_float_array (w : World) (a : jfloatArray)
  : option (list jfloat) :=
  match a with
  | None => None
  | Some r =>
      match heap w !! r with
      | Some (FloatArray elems) => Some elems
      | _ => None
      end
  end.

Definition read_cpu_usage (w : World) (o : jobject)
  : option (option CpuUsageInfo) :=
  match o with
  | None => Some None
  | Some r =>
      match heap w !! r with
      | Some (CpuUsageInfoObj _ a t) => Some (Some (mkCpuUsageInfo a t))
      | _ => None
      end
  end.

Definition read_cpu_usage_array (w : World) (a : jobjectArray)
  : option (list (option CpuUsageInfo)) :=
  match a with
  | None => None
  | Some r =>
      match heap w !! r with
      | Some (ObjectArray _ elems) => mapM (read_cpu_usage w) elems
      | _ => None
      end
  end.

(** The objects of an array, without its [null] slots. *)
Definition objects_of {A} (slots : list (option A)) : list A :=
  omap id slots.

(** *** The heap [nativeGetCpuUsages] builds *)

Definition online_count (l : list CpuUsage) : nat :=
  length (List.filter cu_isOnline l).

Fixpoint cpu_slots (next : ref) (l : list CpuUsage) : list jobject :=
  match l with
  | [] => []
  | c :: l' =>
      if cu_isOnline c then Some next :: cpu_slots (S next) l'
      else None :: cpu_slots next l'
  end.

Definition cpu_objs (cls : jclass) (l : list CpuUsage) : list JObject :=
  map (fun c => CpuUsageInfoObj cls (as_jlong (cu_active c))
                                (as_jlong (cu_total c)))
      (List.filter cu_isOnline l).

(** The heap after the cores [done] have been handled, with [k] slots
    of the array still to go: the old heap [h0], the array, then one
    object per online core. *)
Definition cpu_heap (cls : jclass) (h0 : list JObject) (done : list CpuUsage)
    (k : nat) : list JObject :=
  h0 ++ ObjectArray cls (cpu_slots (S (length h0)) done ++ replicate k None)
     :: cpu_objs cls done.

(** *** The operations exposed to the managed side *)

(** The three queries of the method table; all return a reference. *)
Inductive Query :=
| GetFanSpeeds
| GetDeviceTemperatures (type source : jint)
| GetCpuUsages.

Definition run_query (q : Query) : M jobject :=
  match q with
  | GetFanSpeeds => nativeGetFanSpeeds
  | GetDeviceTemperatures type source => nativeGetDeviceTemperatures type source
  | GetCpuUsages => nativeGetCpuUsages
  end.

(** The reply the service gives to a query through proxy [p]: has the
    remote call reported success? *)
Definition reply_succeeded (q : Query) (svc : IThermal) : bool :=
  match q with
  | GetFanSpeeds => succeeded (getCoolingDevices_reply svc)
  | GetDeviceTemperatures _ _ => succeeded (getTemperatures_reply svc)
  | GetCpuUsages => succeeded (getCpuUsages_reply svc)
  end.

(** The handle is unbound, or the call through it does not succeed. *)
Definition unavailable (q : Query) (w : World) : Prop :=
  match gThermalModule w with
  | None => True
  | Some p => reply_succeeded q (remote w p) = false
  end.

(** The reference [a] designates a well-formed, empty array of the
    kind the query returns. *)
Definition is_empty_result (q : Query) (w : World) (a : jobject) : Prop :=
  match q with
  | GetCpuUsages => read_cpu_usage_array w a = Some []
  | _ => read_float_array w a = Some []
  end.

(** [Initialize] called [n] times in a row. *)
Fixpoint nativeInit_times (n : nat) : M unit :=
  match n with
  | O => mret tt
  | S n' => nativeInit;; nativeInit_times n'
  end.

(** The readings the temperature query works on in world [w]. *)
Definition temperatures_list (w : World) : list Temperature :=
  match gThermalModule w with
  | None => []
  | Some p => received (getTemperatures_reply (remote w p))
  end.

(** *** Sample worlds *)

Definition status_ok : ThermalStatus := mkThermalStatus SUCCESS "".
Definition status_failed : ThermalStatus := mkThermalStatus FAILURE "no sensors".

Definition sample_devices : list CoolingDevice :=
  [mkCoolingDevice "fan0" 12.5%float; mkCoolingDevice "fan1" 30%float].

Definition sample_temperatures : list Temperature :=
  [mkTemperature 1 "cpu0" 40%float 60%float 90%float 55%float;
   mkTemperature 1 "cpu1" 41%float 61%float 91%float 56%float;
   mkTemperature 2 "gpu" 20%float 70%float 95%float 65%float].

Definition sample_usages : list CpuUsage :=
  [mkCpuUsage "cpu0" 100 200 true; mkCpuUsage "cpu1" 5 10 false].

Definition sample_service : IThermal :=
  mkIThermal (Delivered status_ok sample_devices)
             (Delivered status_ok sample_temperatures)
             (Delivered status_ok sample_usages).

Definition failing_service : IThermal :=
  mkIThermal (Delivered status_failed sample_devices)
             (Undelivered (-32))
             (Delivered status_failed sample_usages).

(** A freshly started process: nothing registered, nothing bound. *)
Definition world_boot (svc : IThermal) : World :=
  mkWorld (fun name => if decide (name = "thermal") then Some 7%nat else None)
          (fun _ => svc)
          (fun name => if decide (name = "android/os/CpuUsageInfo")
                       then Some [("<init>", "(JJ)V")] else None)
          (fun _ => 0)
          [] None []
          (mkClassInfo None None) None.

(** The same process after registration, before [nativeInit]. *)
Definition world_registered (svc : IThermal) : World :=
  set_gCpuUsageInfoClassInfo
    (mkClassInfo (Some "android/os/CpuUsageInfo")
                 (Some (mkMethodRef "android/os/CpuUsageInfo" "<init>" "(JJ)V")))
    (world_boot svc).

(** ... and after [nativeInit] has bound the handle. *)
Definition world_bound (svc : IThermal) : World :=
  set_gThermalModule (Some 7%nat) (world_registered svc).

(** A world in which the service manager does not know "thermal". *)
Definition world_no_service : World :=
  mkWorld (fun _ => None) (fun _ => sample_service)
          (fun _ => None) (fun _ => 0)
          [] None []
          (mkClassInfo None None) None.

(** *** Sequences of calls from the managed side *)

(** One call through the method table. *)
Inductive Native :=
| CallInit
| CallQuery (q : Query).

Definition run_native (n : Native) : M unit :=
  match n with
  | CallInit => nativeInit
  | CallQuery q => _ ← run_query q; mret tt
  end.

Fixpoint run_natives (ns : list Native) : M unit :=
  match ns with
  | [] => mret tt
  | n :: ns' => run_native n;; run_natives ns'
  end.

(** The service manager's registry changes behind the bridge's back. *)
Definition set_hwservicemanager (reg : string -> option IThermalProxy)
    (w : World) : World :=
  mkWorld reg (remote w) (classes w) (registerNatives w)
          (heap w) (pendingException w) (logcat w)
          (gCpuUsageInfoClassInfo w) (gThermalModule w).

(** *** The diagnostics of the three queries *)

(** The format logged from inside the callback, on a reply whose code
    is not SUCCESS. *)
Definition callback_format (q : Query) : string :=
  match q with
  | GetFanSpeeds => "Couldn't get fan speeds because of HAL error: %s"
  | GetDeviceTemperatures _ _ =>
      "Couldn't get temperatures because of HAL error: %s"
  | GetCpuUsages => "Couldn't get CPU usages because of HAL error: %s"
  end.

(** The format logged when the transport status is not ok. *)
Definition status_format (q : Query) : string :=
  match q with
  | GetFanSpeeds => "getCoolingDevices failed status: %d"
  | GetDeviceTemperatures _ _ => "getDeviceTemperatures failed status: %d"
  | GetCpuUsages => "getCpuUsages failed status: %d"
  end.

(** The format logged when the query gives up before calling. *)
Definition unavailable_format (q : Query) : string :=
  match q with
  | GetFanSpeeds => "Couldn't get fan speeds because of HAL error."
  | GetDeviceTemperatures _ _ =>
      "Couldn't get device temperatures because of HAL error."
  | GetCpuUsages => "Couldn't get CPU usages because of HAL error."
  end.

(** A reply without its payload: the service's status, or the exception
    code of a failed transport. *)
Definition reply_outcome {A} (r : HidlReply A) : ThermalStatus + Z :=
  match r with
  | Delivered status _ => inl status
  | Undelivered ex => inr ex
  end.

Definition query_outcome (q : Query) (svc : IThermal) : ThermalStatus + Z :=
  match q with
  | GetFanSpeeds => reply_outcome (getCoolingDevices_reply svc)
  | GetDeviceTemperatures _ _ => reply_outcome (getTemperatures_reply svc)
  | GetCpuUsages => reply_outcome (getCpuUsages_reply svc)
  end.

(** The query goes as far as the remote call: the handle is bound and,
    for the CPU usages, the constructor is resolved. *)
Definition reaches_service (q : Query) (w : World) : bool :=
  match gThermalModule w, q with
  | None, _ => false
  | Some _, GetCpuUsages =>
      bool_decide (initMethod (gCpuUsageInfoClassInfo w) <> None)
  | Some _, _ => true
  end.

Definition CpuUsageInfo_class : string := "android/os/CpuUsageInfo".

Definition CpuUsageInfo_init : MethodRef :=
  mkMethodRef CpuUsageInfo_class "<init>" "(JJ)V".

(** The runtime can resolve the class and its two-[long] constructor. *)
Definition descriptor_resolvable (w : World) : bool :=
  match classes w CpuUsageInfo_class with
  | Some methods => bool_decide (("<init>", "(JJ)V") ∈ methods)
  | None => false
  end.

(** A process that kept a handle from before registration. *)
Definition world_stale (svc : IThermal) : World :=
  set_gThermalModule (Some 3%nat) (world_boot svc).

(** The lines a query appends to the log, read off the three bodies:
    one line when it gives up before calling, one line for a reply whose
    code is not SUCCESS, one line for a transport failure, none
    otherwise. *)
Definition outcome_log (q : Query) (o : ThermalStatus + Z) : list LogLine :=
  match o with
  | inl status =>
      if is_SUCCESS (code status) then []
      else [mkLogLine LOG_TAG (callback_format q)
                      [ArgS (debugMessage status)]]
  | inr ex =>
      if ex =? 0 then []
      else [mkLogLine LOG_TAG (status_format q) [ArgD ex]]
  end.

Definition query_log (q : Query) (w : World) : list LogLine :=
  match gThermalModule w with
  | Some p =>
      if reaches_service q w
      then outcome_log q (query_outcome q (remote w p))
      else [mkLogLine LOG_TAG (unavailable_format q) []]
  | None => [mkLogLine LOG_TAG (unavailable_format q) []]
  end.

(** What calls through the method table may change: [w'] has the heap
    and the log of [w] as prefixes, the same pending exception, the same
    class descriptor and the same surroundings, and a handle bound in
    [w] is the handle of [w']. *)
Definition evolves (w w' : World) : Prop :=
  heap w `prefix_of` heap w'
  /\ logcat w `prefix_of` logcat w'
  /\ pendingException w' = pendingException w
  /\ gCpuUsageInfoClassInfo w' = gCpuUsageInfoClassInfo w
  /\ hwservicemanager w' = hwservicemanager w
  /\ remote w' = remote w
  /\ (forall p, gThermalModule w = Some p -> gThermalModule w' = Some p).

(** A service whose first core reports counters above [2^63 - 1]. *)
Definition large_usages : list CpuUsage :=
  [mkCpuUsage "cpu0" (2 ^ 64 - 1) (2 ^ 63) true].

Definition large_counter_service : IThermal :=
  mkIThermal (Delivered status_ok sample_devices)
             (Delivered status_ok sample_temperatures)
             (Delivered status_ok large_usages).


(* ------------------------------------------------------------------ *)
(** ** Running programs: basic equations *)

Ltac munfold :=
  unfold mbind, M_bind, mret, M_ret, gets, modify, when, crash.

Lemma bind_Done {A B} (m : M A) (k : A -> M B) w a w' :
  m w = Done a w' -> (m ≫= k) w = k a w'.
Proof. intros H. munfold. now rewrite H. Qed.

Lemma for_loop_S {St} lo n (body : nat -> St -> M St) s w :
  for_loop lo (S n) body s w =
  match body lo s w with
  | Done s' w' => for_loop (S lo) n body s' w'
  | Crash f => Crash f
  end.
Proof. reflexivity. Qed.

Lemma list_insert_middle {A} (l1 l2 : list A) (x y : A) :
  <[length l1 := x]> (l1 ++ y :: l2) = l1 ++ x :: l2.
Proof. induction l1 as [|a l1 IH]; simpl; [reflexivity|]. now rewrite IH. Qed.

Lemma vec_at_middle {A} (pre rest : list A) x w :
  vec_at (pre ++ x :: rest) (length pre) w = Done x w.
Proof.
  unfold vec_at. rewrite list_lookup_middle by reflexivity. reflexivity.
Qed.

Lemma c_store_next {A} (done : list A) (k i : nat) (v : A) w :
  i = length done ->
  c_store (map Some done ++ replicate (S k) None) i v w =
  Done (map Some (done ++ [v]) ++ replicate k None) w.
Proof.
  intros ->. unfold c_store.
  rewrite decide_True
    by (rewrite length_app, length_map, length_replicate; lia).
  munfold. f_equal.
  rewrite map_app. simpl. rewrite <- app_assoc. simpl.
  rewrite <- (length_map Some done). apply list_insert_middle.
Qed.

Lemma c_load_region_done {A} (vs : list A) (rest : c_array A) w :
  c_load_region (map Some vs ++ rest) (length vs) w = Done vs w.
Proof.
  revert w. induction vs as [|v vs IH]; intros w; simpl; [reflexivity|].
  munfold. now rewrite IH.
Qed.

(** The capturing callback of the three queries, run through a call. *)
Lemma hidl_call_capture {A} (method : IThermal -> HidlReply A) fmt p w :
  hidl_call method (Some p)
    (fun status payload (list : hidl_vec A) =>
       if is_SUCCESS (code status) then mret payload
       else ALOGE fmt [ArgS (debugMessage status)];; mret list)
    [] w =
  let r := method (remote w p) in
  Done (status_of r, received r)
       (set_logcat (logcat w ++
          match r with
          | Delivered status _ =>
              if is_SUCCESS (code status) then []
              else [mkLogLine LOG_TAG fmt [ArgS (debugMessage status)]]
          | Undelivered _ => []
          end) w).
Proof.
  unfold hidl_call. munfold. simpl.
  destruct (method (remote w p)) as [st v|ex]; simpl.
  - destruct (is_SUCCESS (code st)); unfold ALOGE; munfold; simpl.
    + rewrite app_nil_r. now destruct w.
    + reflexivity.
  - rewrite app_nil_r. now destruct w.
Qed.

(** The copy loop of [nativeGetFanSpeeds] fills the buffer from the
    left and leaves the world alone. *)
Lemma fan_loop (rest pre : list CoolingDevice) w :
  for_loop (length pre) (length rest)
    (fun i values => d ← vec_at (pre ++ rest) i;
                     c_store values i (cd_currentValue d))
    (map Some (fan_speeds_spec pre) ++ replicate (length rest) None) w =
  Done (map Some (fan_speeds_spec (pre ++ rest))) w.
Proof.
  revert pre. induction rest as [|d rest IH]; intros pre.
  - simpl. rewrite !app_nil_r. reflexivity.
  - cbn [length]. rewrite for_loop_S.
    erewrite bind_Done by apply vec_at_middle.
    rewrite (c_store_next (fan_speeds_spec pre))
      by (symmetry; apply length_map).
    specialize (IH (pre ++ [d])).
    rewrite <- app_assoc in IH. simpl in IH.
    rewrite length_app, Nat.add_1_r in IH.
    unfold fan_speeds_spec in *. rewrite map_app in IH. simpl in IH.
    exact IH.
Qed.

Ltac step := erewrite bind_Done by reflexivity; cbv beta.

Lemma nativeGetFanSpeeds_unbound w :
  gThermalModule w = None ->
  nativeGetFanSpeeds w =
  Done (Some (length (heap w)))
       (set_heap (heap w ++ [FloatArray []])
          (set_logcat
             (logcat w ++
              [mkLogLine LOG_TAG
                 "Couldn't get fan speeds because of HAL error." []]) w)).
Proof.
  intros Hm. unfold nativeGetFanSpeeds. step. rewrite Hm. reflexivity.
Qed.

(** A call through a bound handle, followed by the check of its
    transport status: [list] is what was received, and the world has
    the lines of [call_log] appended to its log. *)
Lemma query_prologue {A B} (method : IThermal -> HidlReply A)
    fmt_cb fmt_st p (k : hidl_vec A -> M B) w :
  ('(status, list) ← hidl_call method (Some p)
       (fun status payload (list : hidl_vec A) =>
          if is_SUCCESS (code status) then mret payload
          else ALOGE fmt_cb [ArgS (debugMessage status)];; mret list)
       [];
   when (negb (isOk status))
        (ALOGE fmt_st [ArgD (exceptionCode status)]);;
   k list) w =
  let r := method (remote w p) in
  k (received r) (set_logcat (logcat w ++ call_log fmt_cb fmt_st r) w).
Proof.
  erewrite bind_Done by apply hidl_call_capture.
  cbv zeta beta iota.
  destruct (method (remote w p)) as [st v|ex]; simpl.
  - destruct (is_SUCCESS (code st)); reflexivity.
  - unfold isOk. simpl. destruct (ex =? 0); simpl.
    + reflexivity.
    + unfold ALOGE. munfold. simpl. rewrite app_nil_r. reflexivity.
Qed.

Lemma new_float_array_filled (vs : list jfloat) (n : nat)
    (rest : c_array jfloat) w :
  n = length vs ->
  (arr ← NewFloatArray n;
   SetFloatArrayRegion arr 0 n (map Some vs ++ rest);;
   mret arr) w =
  Done (Some (length (heap w))) (set_heap (heap w ++ [FloatArray vs]) w).
Proof.
  intros ->. unfold NewFloatArray, SetFloatArrayRegion, alloc. munfold. simpl.
  rewrite list_lookup_middle by reflexivity.
  rewrite decide_True by (rewrite length_replicate; lia).
  rewrite c_load_region_done.
  rewrite drop_ge by (rewrite length_replicate; lia).
  rewrite app_nil_r.
  rewrite list_insert_middle. reflexivity.
Qed.

Lemma nativeGetFanSpeeds_bound w p :
  gThermalModule w = Some p ->
  nativeGetFanSpeeds w =
  let r := getCoolingDevices_reply (remote w p) in
  Done (Some (length (heap w)))
       (set_heap (heap w ++ [FloatArray (fan_speeds_spec (received r))])
          (set_logcat
             (logcat w ++
              call_log "Couldn't get fan speeds because of HAL error: %s"
                       "getCoolingDevices failed status: %d" r) w)).
Proof.
  intros Hm. unfold nativeGetFanSpeeds. step. rewrite Hm.
  rewrite bool_decide_false by discriminate.
  step. rewrite Hm.
  unfold getCoolingDevices. rewrite query_prologue. cbv zeta.
  set (r := getCoolingDevices_reply (remote w p)).
  set (w1 := set_logcat _ w).
  erewrite bind_Done
    by (apply (fan_loop (received r) [])).
  cbv beta. simpl app.
  rewrite <- (app_nil_r (map Some (fan_speeds_spec (received r)))).
  rewrite (new_float_array_filled (fan_speeds_spec (received r)) _ [])
    by (symmetry; apply length_map).
  reflexivity.
Qed.

(** *** The copy loop of [nativeGetDeviceTemperatures] *)

Lemma selector_None source :
  source <> 0 -> source <> 1 -> source <> 2 -> source <> 3 ->
  selector source = None.
Proof.
  intros H0 H1 H2 H3.
  destruct source as [|q|q]; [congruence| |reflexivity].
  destruct q as [[q|q|]|[q|q|]|]; try reflexivity; congruence.
Qed.

Lemma selector_range source :
  is_Some (selector source) <-> 0 <= source <= 3.
Proof.
  split.
  - intros [f Hf].
    destruct (decide (source = 0)), (decide (source = 1)),
             (decide (source = 2)), (decide (source = 3)); try lia.
    rewrite selector_None in Hf by assumption. discriminate.
  - intros H.
    assert (source = 0 \/ source = 1 \/ source = 2 \/ source = 3)
      as [-> | [-> | [-> | ->]]] by lia; simpl; eauto.
Qed.

Lemma device_temperatures_spec_snoc type source pre t :
  device_temperatures_spec type source (pre ++ [t]) =
  device_temperatures_spec type source pre ++ picked type source t.
Proof.
  unfold device_temperatures_spec, picked.
  rewrite List.filter_app. simpl.
  destruct (selector source) as [f|].
  - rewrite map_app. destruct (has_type type t); reflexivity.
  - now destruct (has_type type t).
Qed.

Lemma device_temperatures_spec_nil type source :
  device_temperatures_spec type source [] = [].
Proof. unfold device_temperatures_spec. now destruct (selector source). Qed.

Lemma picked_length type source t :
  (length (picked type source t) <= 1)%nat.
Proof.
  unfold picked.
  destruct (has_type type t); [destruct (selector source)|]; simpl; lia.
Qed.

Lemma temperatures_body_run type source pre t rest out k w :
  temperatures_body (pre ++ t :: rest) type source (length pre)
    (map Some out ++ replicate (S k) None, length out) w =
  Done (map Some (out ++ picked type source t)
          ++ replicate (S k - length (picked type source t)) None,
        length (out ++ picked type source t)) w.
Proof.
  unfold temperatures_body.
  erewrite bind_Done by apply vec_at_middle.
  unfold picked, has_type.
  destruct (t_type t =? type).
  2:{ simpl. rewrite app_nil_r. reflexivity. }
  unfold TEMPERATURE_CURRENT, TEMPERATURE_THROTTLING,
    TEMPERATURE_SHUTDOWN, TEMPERATURE_THROTTLING_BELOW_VR_MIN.
  destruct (Z.eqb_spec source 0) as [->|H0];
    [|destruct (Z.eqb_spec source 1) as [->|H1];
      [|destruct (Z.eqb_spec source 2) as [->|H2];
        [|destruct (Z.eqb_spec source 3) as [->|H3]]]].
  1-4: erewrite bind_Done by (apply c_store_next; reflexivity);
       simpl; rewrite Nat.sub_0_r, length_app, Nat.add_1_r; reflexivity.
  rewrite selector_None by assumption.
  simpl. rewrite app_nil_r. reflexivity.
Qed.

Lemma temperatures_loop type source (rest pre : list Temperature) k w :
  (length rest <= k)%nat ->
  exists k',
    for_loop (length pre) (length rest)
      (temperatures_body (pre ++ rest) type source)
      (map Some (device_temperatures_spec type source pre)
         ++ replicate k None,
       length (device_temperatures_spec type source pre)) w =
    Done (map Some (device_temperatures_spec type source (pre ++ rest))
            ++ replicate k' None,
          length (device_temperatures_spec type source (pre ++ rest))) w
    /\ (length (device_temperatures_spec type source (pre ++ rest)) + k'
        = length (device_temperatures_spec type source pre) + k)%nat.
Proof.
  revert pre k. induction rest as [|t rest IH]; intros pre k Hk.
  - exists k. simpl. rewrite app_nil_r. split; reflexivity.
  - destruct k as [|k]; [simpl in Hk; lia|].
    simpl in Hk.
    pose proof (picked_length type source t) as Hp.
    destruct (IH (pre ++ [t]) (S k - length (picked type source t))%nat)
      as (k' & Hrun & Hlen); [lia|].
    exists k'. cbn [length]. rewrite for_loop_S.
    rewrite temperatures_body_run.
    rewrite <- app_assoc in Hrun, Hlen. simpl in Hrun, Hlen.
    rewrite length_app, Nat.add_1_r in Hrun.
    rewrite device_temperatures_spec_snoc in Hrun, Hlen.
    split; [exact Hrun|].
    rewrite Hlen, length_app. lia.
Qed.

Lemma nativeGetDeviceTemperatures_unbound type source w :
  gThermalModule w = None ->
  nativeGetDeviceTemperatures type source w =
  Done (Some (length (heap w)))
       (set_heap (heap w ++ [FloatArray []])
          (set_logcat
             (logcat w ++
              [mkLogLine LOG_TAG
                 "Couldn't get device temperatures because of HAL error." []])
             w)).
Proof.
  intros Hm. unfold nativeGetDeviceTemperatures. step. rewrite Hm.
  reflexivity.
Qed.

Lemma nativeGetDeviceTemperatures_bound type source w p :
  gThermalModule w = Some p ->
  nativeGetDeviceTemperatures type source w =
  let r := getTemperatures_reply (remote w p) in
  Done (Some (length (heap w)))
       (set_heap
          (heap w ++
           [FloatArray (device_temperatures_spec type source (received r))])
          (set_logcat
             (logcat w ++
              call_log "Couldn't get temperatures because of HAL error: %s"
                       "getDeviceTemperatures failed status: %d" r) w)).
Proof.
  intros Hm. unfold nativeGetDeviceTemperatures. step. rewrite Hm.
  rewrite bool_decide_false by discriminate.
  step. rewrite Hm.
  unfold getTemperatures. rewrite query_prologue. cbv zeta.
  set (r := getTemperatures_reply (remote w p)).
  set (w1 := set_logcat _ w).
  destruct (temperatures_loop type source (received r) [] (length (received r)) w1)
    as (k' & Hrun & _); [lia|].
  rewrite device_temperatures_spec_nil in Hrun. simpl in Hrun.
  erewrite bind_Done by exact Hrun.
  cbv beta iota. simpl app.
  rewrite new_float_array_filled by reflexivity.
  reflexivity.
Qed.

(** *** The fill loop of [nativeGetCpuUsages] *)

Lemma cpu_slots_length next l : length (cpu_slots next l) = length l.
Proof.
  revert next. induction l as [|c l IH]; intros next; simpl; [reflexivity|].
  destruct (cu_isOnline c); simpl; now rewrite IH.
Qed.

Lemma cpu_slots_app next l1 l2 :
  cpu_slots next (l1 ++ l2) =
  cpu_slots next l1 ++ cpu_slots (next + online_count l1)%nat l2.
Proof.
  revert next. induction l1 as [|c l1 IH]; intros next; simpl.
  - now rewrite Nat.add_0_r.
  - unfold online_count. simpl. destruct (cu_isOnline c); simpl.
    + rewrite IH. unfold online_count. now rewrite Nat.add_succ_r.
    + now rewrite IH.
Qed.

Lemma cpu_objs_length cls l : length (cpu_objs cls l) = online_count l.
Proof. unfold cpu_objs. apply length_map. Qed.

Lemma cpu_objs_app cls l1 l2 :
  cpu_objs cls (l1 ++ l2) = cpu_objs cls l1 ++ cpu_objs cls l2.
Proof. unfold cpu_objs. now rewrite List.filter_app, map_app. Qed.

Lemma NewObject_run cls mid a1 a2 w :
  NewObject cls (Some mid) a1 a2 w =
  Done (Some (length (heap w)))
       (set_heap (heap w ++ [CpuUsageInfoObj cls (as_jlong a1)
                                             (as_jlong a2)]) w).
Proof. reflexivity. Qed.

Lemma SetObjectArrayElement_run r ec elems i v w :
  heap w !! r = Some (ObjectArray ec elems) ->
  (i < length elems)%nat ->
  v = None \/ class_of (heap w) v = Some ec ->
  SetObjectArrayElement (Some r) i v w =
  Done tt (set_heap (<[r := ObjectArray ec (<[i := v]> elems)]> (heap w)) w).
Proof.
  intros Hr Hi Hv. unfold SetObjectArrayElement. munfold.
  rewrite Hr. rewrite decide_True by assumption.
  rewrite decide_True by assumption. reflexivity.
Qed.

Lemma cpu_heap_snoc_online cls h0 pre c k :
  cu_isOnline c = true ->
  cpu_heap cls h0 (pre ++ [c]) k =
  h0 ++ ObjectArray cls
          (cpu_slots (S (length h0)) pre
             ++ Some (length (cpu_heap cls h0 pre (S k))) :: replicate k None)
     :: cpu_objs cls pre
     ++ [CpuUsageInfoObj cls (as_jlong (cu_active c))
                         (as_jlong (cu_total c))].
Proof.
  intros Hon. unfold cpu_heap.
  rewrite cpu_slots_app, cpu_objs_app, <- app_assoc.
  unfold cpu_objs at 2. cbn [cpu_slots List.filter app map]. rewrite Hon.
  cbn [app map]. rewrite length_app. cbn [length].
  rewrite cpu_objs_length.
  replace (length h0 + S (online_count pre))%nat
    with (S (length h0) + online_count pre)%nat by lia.
  reflexivity.
Qed.

Lemma cpu_heap_snoc_offline cls h0 pre c k :
  cu_isOnline c = false ->
  cpu_heap cls h0 (pre ++ [c]) k = cpu_heap cls h0 pre (S k).
Proof.
  intros Hoff. unfold cpu_heap.
  rewrite cpu_slots_app, cpu_objs_app, <- app_assoc.
  unfold cpu_objs at 2. cbn [cpu_slots List.filter app map]. rewrite Hoff.
  cbn [app map]. now rewrite app_nil_r.
Qed.

(** One iteration of the fill loop. *)
Lemma cpu_body_run (pre rest : list CpuUsage) c h0 w mid :
  initMethod (gCpuUsageInfoClassInfo w) = Some mid ->
  let ec := clazz (gCpuUsageInfoClassInfo w) in
  (c ← vec_at (pre ++ c :: rest) (length pre);
   when (cu_isOnline c)
        (info ← gets gCpuUsageInfoClassInfo;
         cpuUsage ← NewObject (clazz info) (initMethod info)
                              (cu_active c) (cu_total c);
         SetObjectArrayElement (Some (length h0)) (length pre) cpuUsage))
    (set_heap (cpu_heap ec h0 pre (S (length rest))) w) =
  Done tt (set_heap (cpu_heap ec h0 (pre ++ [c]) (length rest)) w).
Proof.
  intros Hmid ec.
  erewrite bind_Done by apply vec_at_middle.
  destruct (cu_isOnline c) eqn:Hon; unfold when.
  - step. cbn [gCpuUsageInfoClassInfo set_heap]. rewrite Hmid.
    erewrite bind_Done by apply NewObject_run.
    cbn [heap set_heap].
    erewrite SetObjectArrayElement_run; cbn [heap set_heap].
    2:{ unfold cpu_heap. rewrite <- app_assoc. cbn [app].
        apply list_lookup_middle. reflexivity. }
    2:{ rewrite length_app, cpu_slots_length, length_replicate. lia. }
    2:{ right. unfold class_of.
        rewrite list_lookup_middle by reflexivity. reflexivity. }
    rewrite cpu_heap_snoc_online by assumption.
    unfold cpu_heap at 2. rewrite <- app_assoc. cbn [app].
    rewrite list_insert_middle.
    rewrite <- (cpu_slots_length (S (length h0)) pre) at 1.
    cbn [replicate]. rewrite list_insert_middle.
    reflexivity.
  - rewrite cpu_heap_snoc_offline by assumption. reflexivity.
Qed.

Lemma cpu_loop (rest pre : list CpuUsage) (h0 : list JObject) w mid :
  initMethod (gCpuUsageInfoClassInfo w) = Some mid ->
  let ec := clazz (gCpuUsageInfoClassInfo w) in
  for_loop (length pre) (length rest)
    (fun i (_ : unit) =>
       c ← vec_at (pre ++ rest) i;
       when (cu_isOnline c)
            (info ← gets gCpuUsageInfoClassInfo;
             cpuUsage ← NewObject (clazz info) (initMethod info)
                                  (cu_active c) (cu_total c);
             SetObjectArrayElement (Some (length h0)) i cpuUsage))
    tt
    (set_heap (cpu_heap ec h0 pre (length rest)) w) =
  Done tt (set_heap (cpu_heap ec h0 (pre ++ rest) 0) w).
Proof.
  intros Hmid. cbv zeta. revert pre.
  induction rest as [|c rest IH]; intros pre.
  - rewrite app_nil_r. reflexivity.
  - cbn [length]. rewrite for_loop_S. cbv beta.
    rewrite (cpu_body_run pre rest c h0 w mid Hmid).
    specialize (IH (pre ++ [c])).
    rewrite <- app_assoc, length_app, Nat.add_1_r in IH.
    exact IH.
Qed.

Lemma nativeGetCpuUsages_degraded w :
  gThermalModule w = None \/ initMethod (gCpuUsageInfoClassInfo w) = None ->
  nativeGetCpuUsages w =
  Done (Some (length (heap w)))
       (set_heap
          (heap w ++ [ObjectArray (clazz (gCpuUsageInfoClassInfo w)) []])
          (set_logcat
             (logcat w ++
              [mkLogLine LOG_TAG
                 "Couldn't get CPU usages because of HAL error." []]) w)).
Proof.
  intros H. unfold nativeGetCpuUsages. do 2 step.
  assert (bool_decide (gThermalModule w = None)
          || bool_decide (initMethod (gCpuUsageInfoClassInfo w) = None)
          = true) as ->.
  { destruct H as [H|H]; rewrite H; simpl; [reflexivity|].
    apply orb_true_r. }
  reflexivity.
Qed.

Lemma nativeGetCpuUsages_bound w p mid :
  gThermalModule w = Some p ->
  initMethod (gCpuUsageInfoClassInfo w) = Some mid ->
  nativeGetCpuUsages w =
  let r := getCpuUsages_reply (remote w p) in
  Done (Some (length (heap w)))
       (set_heap
          (cpu_heap (clazz (gCpuUsageInfoClassInfo w)) (heap w)
                    (received r) 0)
          (set_logcat
             (logcat w ++
              call_log "Couldn't get CPU usages because of HAL error: %s"
                       "getCpuUsages failed status: %d" r) w)).
Proof.
  intros Hm Hmid. unfold nativeGetCpuUsages. do 2 step.
  rewrite Hm, Hmid.
  rewrite !bool_decide_false by discriminate. cbn [orb].
  step. rewrite Hm.
  unfold getCpuUsages. rewrite query_prologue. cbv zeta.
  set (r := getCpuUsages_reply (remote w p)).
  set (w1 := set_logcat _ w).
  step. unfold NewObjectArray, alloc.
  erewrite bind_Done by reflexivity. cbv beta.
  pose proof (cpu_loop (received r) [] (heap w) w1 mid Hmid) as Hloop.
  cbv zeta in Hloop. unfold cpu_heap at 1 in Hloop.
  cbn [length app cpu_slots cpu_objs List.filter map] in Hloop.
  erewrite bind_Done by exact Hloop.
  reflexivity.
Qed.

(** *** Reading the results back *)

Lemma read_float_array_new w h l vs :
  read_float_array (set_heap (heap w ++ [FloatArray vs]) (set_logcat l h))
                   (Some (length (heap w))) = Some vs.
Proof.
  unfold read_float_array. cbn [heap set_heap].
  now rewrite list_lookup_middle.
Qed.

Lemma lookup_after_array {A} (h0 : list A) arr objs1 o objs2 n :
  n = (S (length h0) + length objs1)%nat ->
  (h0 ++ arr :: objs1 ++ o :: objs2) !! n = Some o.
Proof.
  intros ->.
  change (h0 ++ arr :: objs1 ++ o :: objs2)
    with (h0 ++ (arr :: objs1) ++ o :: objs2).
  rewrite app_assoc. apply list_lookup_middle.
  rewrite length_app. simpl. lia.
Qed.

Lemma read_cpu_slots cls h0 arr (full : list CpuUsage) w :
  heap w = h0 ++ arr :: cpu_objs cls full ->
  forall rest pre,
    full = pre ++ rest ->
    Forall2 (fun x y => read_cpu_usage w x = Some y)
            (cpu_slots (S (length h0) + online_count pre)%nat rest)
            (cpu_usages_spec rest).
Proof.
  intros Hheap. induction rest as [|c rest IH]; intros pre Hfull.
  - constructor.
  - specialize (IH (pre ++ [c])).
    rewrite <- app_assoc in IH. specialize (IH Hfull).
    cbn [cpu_slots cpu_usages_spec map].
    destruct (cu_isOnline c) eqn:Hon.
    + constructor.
      * unfold read_cpu_usage. rewrite Hheap, Hfull, cpu_objs_app.
        unfold cpu_objs at 2. cbn [List.filter]. rewrite Hon. cbn [map].
        rewrite lookup_after_array; [reflexivity|].
        now rewrite cpu_objs_length.
      * unfold online_count in IH. rewrite List.filter_app in IH.
        cbn [List.filter] in IH. rewrite Hon, length_app in IH.
        cbn [length] in IH. unfold online_count.
        replace (S (S (length h0) + length (List.filter cu_isOnline pre)))%nat
          with (S (length h0)
                + (length (List.filter cu_isOnline pre) + 1))%nat by lia.
        exact IH.
    + constructor; [reflexivity|].
      unfold online_count in IH. rewrite List.filter_app in IH.
      cbn [List.filter] in IH. rewrite Hon, app_nil_r in IH. exact IH.
Qed.

Lemma read_cpu_usage_array_filled cls h0 (list : list CpuUsage) w :
  heap w = cpu_heap cls h0 list 0 ->
  read_cpu_usage_array w (Some (length h0)) = Some (cpu_usages_spec list).
Proof.
  intros Hheap. unfold read_cpu_usage_array.
  rewrite Hheap. unfold cpu_heap.
  rewrite list_lookup_middle by reflexivity.
  cbn [replicate]. rewrite app_nil_r.
  apply mapM_Some_2.
  pose proof (read_cpu_slots cls h0 _ list w Hheap list [] eq_refl) as H.
  unfold online_count in H. cbn [List.filter length] in H.
  now rewrite Nat.add_0_r in H.
Qed.

Lemma objects_of_cpu_usages_spec (list : list CpuUsage) :
  length (objects_of (cpu_usages_spec list)) = online_count list.
Proof.
  unfold objects_of, cpu_usages_spec, online_count.
  induction list as [|c l IH]; [reflexivity|].
  cbn [map omap list_omap List.filter]. destruct (cu_isOnline c); simpl; lia.
Qed.

(** *** [nativeInit] and registration *)

Lemma nativeInit_bound w p :
  gThermalModule w = Some p -> nativeInit w = Done tt w.
Proof.
  intros Hm. unfold nativeInit. step. rewrite Hm.
  rewrite bool_decide_false by discriminate.
  unfold when at 1. step. step. rewrite Hm.
  rewrite bool_decide_false by discriminate. reflexivity.
Qed.

Lemma nativeInit_found w p :
  gThermalModule w = None ->
  hwservicemanager w "thermal" = Some p ->
  nativeInit w = Done tt (set_gThermalModule (Some p) w).
Proof.
  intros Hm Hs. unfold nativeInit. step. rewrite Hm.
  rewrite bool_decide_true by reflexivity.
  unfold when at 1, getService. munfold. cbn. rewrite Hs.
  rewrite bool_decide_false by discriminate. reflexivity.
Qed.

Lemma nativeInit_missing w :
  gThermalModule w = None ->
  hwservicemanager w "thermal" = None ->
  nativeInit w =
  Done tt (set_logcat
             (logcat w ++
              [mkLogLine LOG_TAG "Unable to get Thermal service." []]) w).
Proof.
  intros Hm Hs. unfold nativeInit. step. rewrite Hm.
  rewrite bool_decide_true by reflexivity.
  unfold when at 1, getService, ALOGE. munfold. cbn. rewrite Hs.
  rewrite bool_decide_true by reflexivity.
  destruct w; simpl in *. now subst.
Qed.

(** Whatever the lookup finds, [nativeInit] returns, and the registry
    is as before. *)
Lemma nativeInit_total w :
  exists w',
    nativeInit w = Done tt w'
    /\ hwservicemanager w' = hwservicemanager w
    /\ gThermalModule w' =
       match gThermalModule w with
       | Some p => Some p
       | None => hwservicemanager w "thermal"
       end.
Proof.
  destruct (gThermalModule w) as [p|] eqn:Hm.
  - exists w. rewrite (nativeInit_bound w p Hm). auto.
  - destruct (hwservicemanager w "thermal") as [p|] eqn:Hs.
    + eexists. rewrite (nativeInit_found w p Hm Hs). auto.
    + eexists. rewrite (nativeInit_missing w Hm Hs). cbn. auto.
Qed.

Lemma nativeInit_times_total n w :
  exists w',
    nativeInit_times n w = Done tt w'
    /\ hwservicemanager w' = hwservicemanager w
    /\ gThermalModule w' =
       match n, gThermalModule w with
       | O, m => m
       | _, Some p => Some p
       | _, None => hwservicemanager w "thermal"
       end.
Proof.
  revert w. induction n as [|n IH]; intros w.
  - exists w. auto.
  - destruct (nativeInit_total w) as (w1 & Hrun & Hreg & Hm).
    destruct (IH w1) as (w' & Hrun' & Hreg' & Hm').
    exists w'. cbn [nativeInit_times].
    erewrite bind_Done by exact Hrun.
    split; [exact Hrun'|]. split; [congruence|].
    rewrite Hm', Hm, Hreg.
    destruct n, (gThermalModule w) as [p|]; try reflexivity.
    now destruct (hwservicemanager w "thermal").
Qed.

(* ------------------------------------------------------------------ *)
(** ** Properties of the bridge *)

(** C1. With a bound handle and a successful reply carrying the
    readings [temps], [nativeGetDeviceTemperatures type source] returns,
    for each source code 0, 1, 2, 3, a float array holding exactly the
    readings whose type tag equals [type], in order, each mapped through
    the field that code stands for (0 current value, 1 throttling
    threshold, 2 shutdown threshold, 3 VR throttling threshold).  In
    particular, on three readings with type tags A, A, B (A and B
    different) a query for A returns two entries and a query for a third
    tag C returns none. *)
Theorem C1_device_temperatures_filter_and_select
    (w : World) (p : IThermalProxy) (status : ThermalStatus)
    (temps : list Temperature) (type : jint) :
  gThermalModule w = Some p ->
  getTemperatures_reply (remote w p) = Delivered status temps ->
  code status = SUCCESS ->
  (forall source f,
     (source, f) ∈ [(0, t_currentValue); (1, t_throttlingThreshold);
                    (2, t_shutdownThreshold); (3, t_vrThrottlingThreshold)] ->
     exists arr w',
       nativeGetDeviceTemperatures type source w = Done arr w'
       /\ read_float_array w' arr
          = Some (map f (List.filter (fun t => t_type t =? type) temps)))
  /\ (forall source t1 t2 t3,
        0 <= source <= 3 ->
        temps = [t1; t2; t3] ->
        t_type t1 = t_type t2 ->
        t_type t3 <> t_type t1 ->
        exists arr w' vs,
          nativeGetDeviceTemperatures type source w = Done arr w'
          /\ read_float_array w' arr = Some vs
          /\ (type = t_type t1 -> length vs = 2%nat)
          /\ (type <> t_type t1 -> type <> t_type t3 -> length vs = 0%nat)).
Proof.
  intros Hm Hr Hs.
  pose proof (nativeGetDeviceTemperatures_bound type) as Hrun.
  split.
  - intros source f Hin.
    do 2 eexists. split; [apply Hrun, Hm|].
    cbv zeta. rewrite read_float_array_new. f_equal.
    rewrite Hr. unfold received. rewrite Hs. cbn [is_SUCCESS].
    unfold device_temperatures_spec.
    rewrite !elem_of_cons in Hin.
    destruct Hin as [H|[H|[H|[H|H]]]];
      [injection H as -> ->; reflexivity ..|].
    now apply elem_of_nil in H.
  - intros source t1 t2 t3 Hsrc -> Heq Hne.
    do 3 eexists. split; [apply Hrun, Hm|].
    cbv zeta. rewrite read_float_array_new. split; [reflexivity|].
    rewrite Hr. unfold received. rewrite Hs. cbn [is_SUCCESS].
    unfold device_temperatures_spec.
    destruct (proj2 (selector_range source) Hsrc) as [f ->].
    rewrite length_map. unfold has_type. cbn [List.filter].
    rewrite <- Heq.
    split.
    + intros ->. rewrite Z.eqb_refl.
      destruct (Z.eqb_spec (t_type t3) (t_type t1)); [contradiction|].
      reflexivity.
    + intros H1 H3.
      destruct (Z.eqb_spec (t_type t1) type); [congruence|].
      destruct (Z.eqb_spec (t_type t3) type); [congruence|].
      reflexivity.
Qed.

Lemma C1_witness :
  gThermalModule (world_bound sample_service) = Some 7%nat
  /\ getTemperatures_reply (remote (world_bound sample_service) 7%nat)
     = Delivered status_ok sample_temperatures
  /\ code status_ok = SUCCESS
  /\ exists arr w',
       nativeGetDeviceTemperatures 1 1 (world_bound sample_service)
       = Done arr w'
       /\ read_float_array w' arr = Some [60%float; 61%float].
Proof.
  split; [reflexivity|]. split; [reflexivity|]. split; [reflexivity|].
  apply (proj1 (C1_device_temperatures_filter_and_select
                  (world_bound sample_service) 7%nat status_ok
                  sample_temperatures 1 eq_refl eq_refl eq_refl)
               1 t_throttlingThreshold).
  apply list_elem_of_further, list_elem_of_here.
Defined.

(** C2. With a bound handle and a successful reply carrying the cooling
    devices [devices], [nativeGetFanSpeeds] returns a float array with
    one element per device, the device's current value, in the order of
    the reply; for two devices with values 12.5 and 30.0 the array is
    [12.5; 30.0]. *)
Theorem C2_fan_speeds_one_per_device_in_order
    (w : World) (p : IThermalProxy) (status : ThermalStatus)
    (devices : list CoolingDevice) :
  gThermalModule w = Some p ->
  getCoolingDevices_reply (remote w p) = Delivered status devices ->
  code status = SUCCESS ->
  exists arr w' vs,
    nativeGetFanSpeeds w = Done arr w'
    /\ read_float_array w' arr = Some vs
    /\ length vs = length devices
    /\ (forall i d, devices !! i = Some d -> vs !! i = Some (cd_currentValue d))
    /\ vs = map cd_currentValue devices
    /\ (forall d1 d2,
          devices = [d1; d2] ->
          cd_currentValue d1 = 12.5%float ->
          cd_currentValue d2 = 30%float ->
          vs = [12.5%float; 30%float]).
Proof.
  intros Hm Hr Hs.
  exists (Some (length (heap w))). do 2 eexists.
  split; [apply nativeGetFanSpeeds_bound, Hm|].
  cbv zeta. rewrite read_float_array_new. split; [reflexivity|].
  rewrite Hr. unfold received. rewrite Hs. cbn [is_SUCCESS].
  unfold fan_speeds_spec.
  split; [apply length_map|].
  split; [intros i d Hd; rewrite list_lookup_fmap_Some; eauto|].
  split; [reflexivity|].
  intros d1 d2 -> H1 H2. cbn [map]. now rewrite H1, H2.
Qed.

Lemma C2_witness :
  gThermalModule (world_bound sample_service) = Some 7%nat
  /\ getCoolingDevices_reply (remote (world_bound sample_service) 7%nat)
     = Delivered status_ok sample_devices
  /\ code status_ok = SUCCESS
  /\ exists arr w' vs,
       nativeGetFanSpeeds (world_bound sample_service) = Done arr w'
       /\ read_float_array w' arr = Some vs
       /\ vs = [12.5%float; 30%float].
Proof.
  split; [reflexivity|]. split; [reflexivity|]. split; [reflexivity|].
  destruct (C2_fan_speeds_one_per_device_in_order
              (world_bound sample_service) 7%nat status_ok sample_devices
              eq_refl eq_refl eq_refl)
    as (arr & w' & vs & Hrun & Hread & _ & _ & _ & Hex).
  exists arr, w', vs. split; [exact Hrun|]. split; [exact Hread|].
  apply (Hex _ _ eq_refl eq_refl eq_refl).
Defined.

(** *** What every query leaves alone *)

Lemma received_failed {A} (r : HidlReply A) :
  succeeded r = false -> received r = [].
Proof.
  destruct r as [st v|ex]; simpl; [|reflexivity].
  now destruct (is_SUCCESS (code st)).
Qed.

(** A query returns a fresh reference; the world it leaves differs from
    the one it found only by objects appended to the heap and lines
    appended to the log. *)
Lemma run_query_frame (q : Query) (w : World) :
  exists ext lines,
    run_query q w =
    Done (Some (length (heap w)))
         (set_heap (heap w ++ ext) (set_logcat (logcat w ++ lines) w)).
Proof.
  destruct (gThermalModule w) as [p|] eqn:Hm; destruct q as [|type source|];
    cbn [run_query].
  - rewrite (nativeGetFanSpeeds_bound w p Hm). cbv zeta. eauto.
  - rewrite (nativeGetDeviceTemperatures_bound type source w p Hm).
    cbv zeta. eauto.
  - destruct (initMethod (gCpuUsageInfoClassInfo w)) as [mid|] eqn:Hmid.
    + rewrite (nativeGetCpuUsages_bound w p mid Hm Hmid). cbv zeta.
      unfold cpu_heap. eauto.
    + rewrite nativeGetCpuUsages_degraded by auto. eauto.
  - rewrite (nativeGetFanSpeeds_unbound w Hm). eauto.
  - rewrite (nativeGetDeviceTemperatures_unbound type source w Hm). eauto.
  - rewrite nativeGetCpuUsages_degraded by auto. eauto.
Qed.

Lemma read_cpu_usage_array_new_empty w h l cls :
  read_cpu_usage_array
    (set_heap (heap w ++ [ObjectArray cls []]) (set_logcat l h))
    (Some (length (heap w))) = Some [].
Proof.
  unfold read_cpu_usage_array. cbn [heap set_heap].
  now rewrite list_lookup_middle.
Qed.

(** C3. For each of the three queries and every world: when the handle
    is unbound, or the call through it does not report success (the
    reply carries a status code other than SUCCESS, or the transport
    fails and no reply arrives), the native method returns normally, the
    reference it returns designates a well-formed array of length 0, and
    no Java exception is raised: the pending-exception slot is as it
    was. *)
Theorem C3_unavailable_service_yields_empty_result
    (q : Query) (w : World) :
  unavailable q w ->
  exists arr w',
    run_query q w = Done arr w'
    /\ arr <> None
    /\ is_empty_result q w' arr
    /\ pendingException w' = pendingException w.
Proof.
  unfold unavailable. intros Hu.
  destruct (gThermalModule w) as [p|] eqn:Hm.
  - destruct q as [|type source|]; cbn [run_query reply_succeeded] in *.
    + do 2 eexists. split; [apply nativeGetFanSpeeds_bound, Hm|].
      cbv zeta. rewrite (received_failed _ Hu).
      split; [discriminate|]. split; [apply read_float_array_new|].
      reflexivity.
    + do 2 eexists.
      split; [apply nativeGetDeviceTemperatures_bound, Hm|].
      cbv zeta. rewrite (received_failed _ Hu).
      rewrite device_temperatures_spec_nil.
      split; [discriminate|]. split; [apply read_float_array_new|].
      reflexivity.
    + destruct (initMethod (gCpuUsageInfoClassInfo w)) as [mid|] eqn:Hmid.
      * do 2 eexists.
        split; [apply (nativeGetCpuUsages_bound w p mid Hm Hmid)|].
        cbv zeta. rewrite (received_failed _ Hu).
        split; [discriminate|].
        split; [|reflexivity].
        apply (read_cpu_usage_array_filled
                 (clazz (gCpuUsageInfoClassInfo w)) (heap w) []).
        reflexivity.
      * do 2 eexists.
        split; [apply nativeGetCpuUsages_degraded; auto|].
        split; [discriminate|].
        split; [apply read_cpu_usage_array_new_empty|reflexivity].
  - destruct q as [|type source|]; cbn [run_query].
    + do 2 eexists. split; [apply nativeGetFanSpeeds_unbound, Hm|].
      split; [discriminate|]. split; [apply read_float_array_new|].
      reflexivity.
    + do 2 eexists.
      split; [apply nativeGetDeviceTemperatures_unbound, Hm|].
      split; [discriminate|]. split; [apply read_float_array_new|].
      reflexivity.
    + do 2 eexists.
      split; [apply nativeGetCpuUsages_degraded; auto|].
      split; [discriminate|].
      split; [apply read_cpu_usage_array_new_empty|reflexivity].
Qed.

Lemma C3_witness :
  unavailable GetFanSpeeds (world_bound failing_service)
  /\ unavailable (GetDeviceTemperatures 1 0) (world_bound failing_service)
  /\ unavailable GetCpuUsages (world_boot sample_service)
  /\ (exists arr w',
        run_query GetFanSpeeds (world_bound failing_service) = Done arr w'
        /\ read_float_array w' arr = Some []
        /\ pendingException w' = None)
  /\ (exists arr w',
        run_query (GetDeviceTemperatures 1 0) (world_bound failing_service)
        = Done arr w'
        /\ read_float_array w' arr = Some []
        /\ pendingException w' = None)
  /\ (exists arr w',
        run_query GetCpuUsages (world_boot sample_service) = Done arr w'
        /\ read_cpu_usage_array w' arr = Some []
        /\ pendingException w' = None).
Proof.
  split; [reflexivity|]. split; [reflexivity|]. split; [exact I|].
  split; [|split].
  - destruct (C3_unavailable_service_yields_empty_result
                GetFanSpeeds (world_bound failing_service) eq_refl)
      as (arr & w' & Hrun & _ & Hempty & Hexc).
    exists arr, w'. auto.
  - destruct (C3_unavailable_service_yields_empty_result
                (GetDeviceTemperatures 1 0) (world_bound failing_service)
                eq_refl)
      as (arr & w' & Hrun & _ & Hempty & Hexc).
    exists arr, w'. auto.
  - destruct (C3_unavailable_service_yields_empty_result
                GetCpuUsages (world_boot sample_service) I)
      as (arr & w' & Hrun & _ & Hempty & Hexc).
    exists arr, w'. auto.
Defined.

(** C4. For every world and every N >= 1, calling [nativeInit] N times
    in a row (with the service registry as that world has it) returns
    and ends with the same cached handle, hence the same bound/unbound
    state, as calling it once; and when a handle is already cached, a
    call changes nothing at all: the handle is kept, not looked up
    again. *)
Theorem C4_initialize_idempotent (w : World) (N : nat) :
  (1 <= N)%nat ->
  exists w1 wN,
    nativeInit w = Done tt w1
    /\ nativeInit_times N w = Done tt wN
    /\ gThermalModule wN = gThermalModule w1
    /\ (forall p, gThermalModule w = Some p ->
                  w1 = w /\ gThermalModule wN = Some p).
Proof.
  intros HN.
  destruct (nativeInit_total w) as (w1 & Hrun1 & _ & Hm1).
  destruct (nativeInit_times_total N w) as (wN & HrunN & _ & HmN).
  exists w1, wN. split; [exact Hrun1|]. split; [exact HrunN|].
  destruct N as [|N]; [lia|].
  split.
  - rewrite HmN, Hm1. reflexivity.
  - intros p Hp. rewrite (nativeInit_bound w p Hp) in Hrun1.
    injection Hrun1 as <-. split; [reflexivity|].
    rewrite HmN, Hp. reflexivity.
Qed.

Lemma C4_witness :
  (1 <= 3)%nat
  /\ exists w1 wN,
       nativeInit (world_registered sample_service) = Done tt w1
       /\ nativeInit_times 3 (world_registered sample_service) = Done tt wN
       /\ gThermalModule wN = gThermalModule w1.
Proof.
  split; [lia|].
  destruct (C4_initialize_idempotent (world_registered sample_service) 3
              (le_S _ _ (le_S _ _ (le_n 1))))
    as (w1 & wN & H1 & HN & Heq & _).
  exists w1, wN. auto.
Defined.

Lemma cpu_usages_spec_lookup (usages : list CpuUsage) (i : nat) :
  cpu_usages_spec usages !! i =
  match usages !! i with
  | Some c =>
      Some (if cu_isOnline c
            then Some (mkCpuUsageInfo (as_jlong (cu_active c))
                                      (as_jlong (cu_total c)))
            else None)
  | None => None
  end.
Proof.
  revert i. induction usages as [|c l IH]; intros [|i]; simpl; auto.
Qed.

Lemma as_jlong_id (x : Z) :
  - 2 ^ 63 <= x < 2 ^ 63 -> as_jlong x = x.
Proof.
  intros Hx. unfold as_jlong.
  destruct (Z_lt_le_dec x 0) as [Hneg|Hpos].
  - replace (x mod 2 ^ 64) with (x + 2 ^ 64)
      by (apply Z.mod_unique with (q := -1); lia).
    cbv zeta. destruct (Z.ltb_spec (x + 2 ^ 64) (2 ^ 63)); lia.
  - rewrite Z.mod_small by lia.
    cbv zeta. destruct (Z.ltb_spec x (2 ^ 63)); lia.
Qed.

Lemma cpu_heap_length cls h0 (l : list CpuUsage) k :
  length (cpu_heap cls h0 l k) = (length h0 + 1 + online_count l)%nat.
Proof.
  unfold cpu_heap. rewrite length_app. cbn [length].
  rewrite cpu_objs_length. lia.
Qed.

(** C5. With a bound handle, a resolved constructor and a successful
    reply carrying [usages], [nativeGetCpuUsages] returns an object
    array with one slot per core, positions kept: the slot of an online
    core holds an object built from that core's (active, total) pair,
    (unchanged when the counters are below 2^63), the slot of an
    offline core is null, every object in the array is the one of the
    online core at its position, and exactly one object per online core
    was constructed. *)
Theorem C5_cpu_usages_gaps_for_offline_cores
    (w : World) (p : IThermalProxy) (mid : MethodRef)
    (status : ThermalStatus) (usages : list CpuUsage) :
  gThermalModule w = Some p ->
  initMethod (gCpuUsageInfoClassInfo w) = Some mid ->
  getCpuUsages_reply (remote w p) = Delivered status usages ->
  code status = SUCCESS ->
  exists arr w' slots,
    nativeGetCpuUsages w = Done arr w'
    /\ read_cpu_usage_array w' arr = Some slots
    /\ length slots = length usages
    /\ (forall i c,
          usages !! i = Some c -> cu_isOnline c = true ->
          slots !! i
          = Some (Some (mkCpuUsageInfo (as_jlong (cu_active c))
                                       (as_jlong (cu_total c)))))
    /\ (forall i c,
          usages !! i = Some c -> cu_isOnline c = true ->
          0 <= cu_active c < 2 ^ 63 -> 0 <= cu_total c < 2 ^ 63 ->
          slots !! i = Some (Some (mkCpuUsageInfo (cu_active c) (cu_total c))))
    /\ (forall i c,
          usages !! i = Some c -> cu_isOnline c = false ->
          slots !! i = Some None)
    /\ (forall i o,
          slots !! i = Some (Some o) ->
          exists c,
            usages !! i = Some c /\ cu_isOnline c = true
            /\ o = mkCpuUsageInfo (as_jlong (cu_active c))
                                  (as_jlong (cu_total c)))
    /\ length (objects_of slots) = online_count usages
    /\ length (heap w') = (length (heap w) + 1 + online_count usages)%nat.
Proof.
  intros Hm Hmid Hr Hs.
  exists (Some (length (heap w))). eexists. exists (cpu_usages_spec usages).
  split; [apply (nativeGetCpuUsages_bound w p mid Hm Hmid)|].
  cbv zeta. rewrite Hr. unfold received. rewrite Hs. cbn [is_SUCCESS].
  split.
  { apply (read_cpu_usage_array_filled
             (clazz (gCpuUsageInfoClassInfo w)) (heap w) usages).
    reflexivity. }
  split; [apply length_map|].
  split; [|split; [|split; [|split; [|split]]]].
  - intros i c Hi Hon. rewrite cpu_usages_spec_lookup, Hi, Hon. reflexivity.
  - intros i c Hi Hon Ha Ht.
    rewrite cpu_usages_spec_lookup, Hi, Hon.
    rewrite !as_jlong_id by lia. reflexivity.
  - intros i c Hi Hoff. rewrite cpu_usages_spec_lookup, Hi, Hoff. reflexivity.
  - intros i o Hi. rewrite cpu_usages_spec_lookup in Hi.
    destruct (usages !! i) as [c|]; [|discriminate].
    exists c. destruct (cu_isOnline c); [|discriminate].
    injection Hi as <-. auto.
  - apply objects_of_cpu_usages_spec.
  - cbn [heap set_heap]. apply cpu_heap_length.
Qed.

Lemma C5_witness :
  gThermalModule (world_bound sample_service) = Some 7%nat
  /\ initMethod (gCpuUsageInfoClassInfo (world_bound sample_service))
     = Some (mkMethodRef "android/os/CpuUsageInfo" "<init>" "(JJ)V")
  /\ getCpuUsages_reply (remote (world_bound sample_service) 7%nat)
     = Delivered status_ok sample_usages
  /\ code status_ok = SUCCESS
  /\ exists arr w' slots,
       nativeGetCpuUsages (world_bound sample_service) = Done arr w'
       /\ read_cpu_usage_array w' arr = Some slots
       /\ length slots = 2%nat
       /\ slots !! 1%nat = Some None.
Proof.
  split; [reflexivity|]. split; [reflexivity|]. split; [reflexivity|].
  split; [reflexivity|].
  destruct (C5_cpu_usages_gaps_for_offline_cores
              (world_bound sample_service) 7%nat _ status_ok sample_usages
              eq_refl eq_refl eq_refl eq_refl)
    as (arr & w' & slots & Hrun & Hread & Hlen & _ & _ & Hoff & _).
  exists arr, w', slots. split; [exact Hrun|]. split; [exact Hread|].
  split; [exact Hlen|].
  apply (Hoff 1%nat (mkCpuUsage "cpu1" 5 10 false)); reflexivity.
Defined.

(** C6. When the service returns the CPU usages
    [{online, active 100, total 200}; {offline, active 5, total 10}],
    [nativeGetCpuUsages] returns an array that holds one object, with
    active 100 and total 200; it is in slot 0, and slot 1, the offline
    core's, is null. *)
Theorem C6_cpu_usages_end_to_end
    (w : World) (p : IThermalProxy) (mid : MethodRef)
    (status : ThermalStatus) (name0 name1 : string) :
  gThermalModule w = Some p ->
  initMethod (gCpuUsageInfoClassInfo w) = Some mid ->
  getCpuUsages_reply (remote w p)
  = Delivered status [mkCpuUsage name0 100 200 true;
                      mkCpuUsage name1 5 10 false] ->
  code status = SUCCESS ->
  exists arr w' slots,
    nativeGetCpuUsages w = Done arr w'
    /\ read_cpu_usage_array w' arr = Some slots
    /\ objects_of slots = [mkCpuUsageInfo 100 200]
    /\ slots = [Some (mkCpuUsageInfo 100 200); None].
Proof.
  intros Hm Hmid Hr Hs.
  exists (Some (length (heap w))). do 2 eexists.
  split; [apply (nativeGetCpuUsages_bound w p mid Hm Hmid)|].
  cbv zeta. rewrite Hr. unfold received. rewrite Hs. cbn [is_SUCCESS].
  split.
  { apply (read_cpu_usage_array_filled
             (clazz (gCpuUsageInfoClassInfo w)) (heap w)).
    reflexivity. }
  split; reflexivity.
Qed.

Lemma C6_witness :
  gThermalModule (world_bound sample_service) = Some 7%nat
  /\ initMethod (gCpuUsageInfoClassInfo (world_bound sample_service))
     = Some (mkMethodRef "android/os/CpuUsageInfo" "<init>" "(JJ)V")
  /\ getCpuUsages_reply (remote (world_bound sample_service) 7%nat)
     = Delivered status_ok [mkCpuUsage "cpu0" 100 200 true;
                            mkCpuUsage "cpu1" 5 10 false]
  /\ code status_ok = SUCCESS
  /\ exists arr w' slots,
       nativeGetCpuUsages (world_bound sample_service) = Done arr w'
       /\ read_cpu_usage_array w' arr = Some slots
       /\ objects_of slots = [mkCpuUsageInfo 100 200]
       /\ slots = [Some (mkCpuUsageInfo 100 200); None].
Proof.
  split; [reflexivity|]. split; [reflexivity|]. split; [reflexivity|].
  split; [reflexivity|].
  exact (C6_cpu_usages_end_to_end (world_bound sample_service) 7%nat _
           status_ok "cpu0" "cpu1" eq_refl eq_refl eq_refl eq_refl).
Defined.

(** C8. For a source code outside 0..3, whatever the world and the
    readings, [nativeGetDeviceTemperatures type source] returns
    normally with an empty float array, also when readings of the
    requested type exist; no exception is raised for the invalid
    argument, and the log is the one a query with source 0 writes. *)
Theorem C8_unrecognized_source_drops_everything
    (w : World) (type source : jint) :
  source < 0 \/ 3 < source ->
  exists arr w',
    nativeGetDeviceTemperatures type source w = Done arr w'
    /\ read_float_array w' arr = Some []
    /\ pendingException w' = pendingException w
    /\ exists arr0 w0,
         nativeGetDeviceTemperatures type 0 w = Done arr0 w0
         /\ logcat w' = logcat w0.
Proof.
  intros Hsrc.
  assert (Hsel : selector source = None) by (apply selector_None; lia).
  destruct (gThermalModule w) as [p|] eqn:Hm.
  - do 2 eexists.
    split; [apply nativeGetDeviceTemperatures_bound, Hm|].
    cbv zeta. unfold device_temperatures_spec at 1. rewrite Hsel.
    split; [apply read_float_array_new|]. split; [reflexivity|].
    do 2 eexists.
    split; [apply nativeGetDeviceTemperatures_bound, Hm|]. reflexivity.
  - do 2 eexists.
    split; [apply nativeGetDeviceTemperatures_unbound, Hm|].
    split; [apply read_float_array_new|]. split; [reflexivity|].
    do 2 eexists.
    split; [apply nativeGetDeviceTemperatures_unbound, Hm|]. reflexivity.
Qed.

Lemma C8_witness :
  (4 < 0 \/ 3 < 4)
  /\ exists arr w',
       nativeGetDeviceTemperatures 1 4 (world_bound sample_service)
       = Done arr w'
       /\ read_float_array w' arr = Some []
       /\ pendingException w' = None.
Proof.
  split; [right; reflexivity|].
  destruct (C8_unrecognized_source_drops_everything
              (world_bound sample_service) 1 4 (or_intror eq_refl))
    as (arr & w' & Hrun & Hread & Hexc & _).
  exists arr, w'. auto.
Defined.

(** C9. Each of the three queries returns and leaves the cached handle
    [gThermalModule] exactly as it found it; [nativeInit] is the only
    one of the four natives that writes it, and it writes it only when
    it is unbound: a bound handle is kept as it is. *)
Theorem C9_queries_preserve_handle (q : Query) (w : World) :
  (exists arr w',
     run_query q w = Done arr w'
     /\ gThermalModule w' = gThermalModule w)
  /\ (exists w',
        nativeInit w = Done tt w'
        /\ gThermalModule w' =
           match gThermalModule w with
           | Some p => Some p
           | None => hwservicemanager w "thermal"
           end).
Proof.
  split.
  - destruct (run_query_frame q w) as (ext & lines & Hrun).
    do 2 eexists. split; [exact Hrun|]. reflexivity.
  - destruct (nativeInit_total w) as (w' & Hrun & _ & Hm). eauto.
Qed.

Lemma buffer_length_after_loop type source (list : list Temperature) w :
  exists values len,
    for_loop 0 (length list) (temperatures_body list type source)
             (c_array_new (length list), O) w
    = Done (values, len) w
    /\ len = length (device_temperatures_spec type source list)
    /\ (len <= length list)%nat
    /\ length values = length list.
Proof.
  destruct (temperatures_loop type source list [] (length list) w)
    as (k' & Hrun & Hk); [lia|].
  rewrite device_temperatures_spec_nil in Hrun, Hk.
  cbn [app length map] in Hrun, Hk.
  do 2 eexists. split; [exact Hrun|]. split; [reflexivity|].
  rewrite length_app, length_map, length_replicate. lia.
Qed.

(** C10. In [nativeGetDeviceTemperatures], for every reading list and
    every (type, source): the copy loop, started on the buffer [values]
    of [list.size()] cells, runs to its end without a store outside the
    buffer, the count [length] of values written is at most
    [list.size()], and the array returned has [length] elements, so at
    most as many as there are readings. *)
Theorem C10_temperature_buffer_in_bounds (w : World) (type source : jint) :
  (forall (list : list Temperature),
     exists values len,
       for_loop 0 (length list) (temperatures_body list type source)
                (c_array_new (length list), O) w
       = Done (values, len) w
       /\ (len <= length list)%nat
       /\ length values = length list)
  /\ exists arr w' vs,
       nativeGetDeviceTemperatures type source w = Done arr w'
       /\ read_float_array w' arr = Some vs
       /\ (length vs <= length (temperatures_list w))%nat.
Proof.
  split.
  - intros list.
    destruct (buffer_length_after_loop type source list w)
      as (values & len & Hrun & _ & Hle & Hlen).
    eauto.
  - unfold temperatures_list.
    destruct (gThermalModule w) as [p|] eqn:Hm.
    + do 3 eexists.
      split; [apply nativeGetDeviceTemperatures_bound, Hm|].
      cbv zeta. split; [apply read_float_array_new|].
      destruct (buffer_length_after_loop type source
                  (received (getTemperatures_reply (remote w p))) w)
        as (_ & len & _ & -> & Hle & _).
      exact Hle.
    + do 3 eexists.
      split; [apply nativeGetDeviceTemperatures_unbound, Hm|].
      split; [apply read_float_array_new|]. reflexivity.
Qed.

(** The bound of C10 is needed: on a buffer one cell too short the same
    loop stores outside it. *)
Example short_buffer_overflows :
  for_loop 0 2
    (temperatures_body (firstn 2 sample_temperatures) 1 0)
    (c_array_new 1, O) (world_bound sample_service)
  = Crash StackBufferOverflow.
Proof. reflexivity. Qed.

(* ------------------------------------------------------------------ *)
(** ** Further properties: registration, diagnostics, call sequences *)

Lemma call_log_outcome {A} (q : Query) (r : HidlReply A) :
  call_log (callback_format q) (status_format q) r
  = outcome_log q (reply_outcome r).
Proof. now destruct r. Qed.

(** The run of a query, whatever the world: a fresh reference, objects
    appended to the heap, the lines of [query_log] appended to the log. *)
Lemma run_query_log (q : Query) (w : World) :
  exists ext,
    run_query q w =
    Done (Some (length (heap w)))
         (set_heap (heap w ++ ext)
                   (set_logcat (logcat w ++ query_log q w) w))
    /\ ext <> [].
Proof.
  unfold query_log, reaches_service.
  destruct (gThermalModule w) as [p|] eqn:Hm; destruct q as [|type source|];
    cbn [run_query query_outcome].
  - rewrite (nativeGetFanSpeeds_bound w p Hm). cbv zeta.
    rewrite (call_log_outcome GetFanSpeeds). eexists. split; [reflexivity|].
    discriminate.
  - rewrite (nativeGetDeviceTemperatures_bound type source w p Hm).
    cbv zeta. rewrite (call_log_outcome (GetDeviceTemperatures type source)).
    eexists. split; [reflexivity|]. discriminate.
  - destruct (initMethod (gCpuUsageInfoClassInfo w)) as [mid|] eqn:Hmid.
    + rewrite (nativeGetCpuUsages_bound w p mid Hm Hmid). cbv zeta.
      rewrite (call_log_outcome GetCpuUsages).
      rewrite bool_decide_true by discriminate.
      unfold cpu_heap. eexists. split; [reflexivity|]. discriminate.
    + rewrite nativeGetCpuUsages_degraded by auto.
      rewrite bool_decide_false by (intros H; now apply H).
      eexists. split; [reflexivity|]. discriminate.
  - rewrite (nativeGetFanSpeeds_unbound w Hm).
    eexists. split; [reflexivity|]. discriminate.
  - rewrite (nativeGetDeviceTemperatures_unbound type source w Hm).
    eexists. split; [reflexivity|]. discriminate.
  - rewrite nativeGetCpuUsages_degraded by auto.
    eexists. split; [reflexivity|]. discriminate.
Qed.

(** X1. Registration either returns or aborts the process, and it
    returns exactly when the runtime resolves [android/os/CpuUsageInfo]
    and its [(JJ)V] constructor.  When it returns, its value is the one
    of [jniRegisterNativeMethods], the cached handle has been reset to
    null, both fields of [gCpuUsageInfoClassInfo] are set, and nothing
    else in the world has changed. *)
Theorem X1_registration_outcome (w : World) :
  match register_android_server_HardwarePropertiesManagerService w with
  | Done res w' =>
      descriptor_resolvable w = true
      /\ res = registerNatives w
                 "com/android/server/HardwarePropertiesManagerService"
      /\ w' = set_gCpuUsageInfoClassInfo
                (mkClassInfo (Some CpuUsageInfo_class)
                             (Some CpuUsageInfo_init))
                (set_gThermalModule None w)
  | Crash f => descriptor_resolvable w = false /\ f = Abort
  end.
Proof.
  unfold register_android_server_HardwarePropertiesManagerService,
    jniRegisterNativeMethods, FindClass, MakeGlobalRefOrDie,
    GetMethodIDOrDie, GetMethodID, Throw, descriptor_resolvable,
    CpuUsageInfo_class.
  munfold. cbn.
  destruct (classes w "android/os/CpuUsageInfo") as [ms|] eqn:Hc; cbn;
    [|auto].
  rewrite Hc.
  destruct (decide (("<init>", "(JJ)V") ∈ ms)) as [Hin|Hin]; cbn.
  - rewrite bool_decide_true by assumption. auto.
  - rewrite bool_decide_false by assumption. auto.
Qed.

Lemma register_returns (w : World) :
  descriptor_resolvable w = true ->
  register_android_server_HardwarePropertiesManagerService w
  = Done (registerNatives w
            "com/android/server/HardwarePropertiesManagerService")
         (set_gCpuUsageInfoClassInfo
            (mkClassInfo (Some CpuUsageInfo_class) (Some CpuUsageInfo_init))
            (set_gThermalModule None w)).
Proof.
  unfold descriptor_resolvable, CpuUsageInfo_class. intros Hres.
  destruct (classes w "android/os/CpuUsageInfo") as [ms|] eqn:Hc;
    [|discriminate].
  apply bool_decide_eq_true in Hres.
  unfold register_android_server_HardwarePropertiesManagerService,
    jniRegisterNativeMethods, FindClass, MakeGlobalRefOrDie,
    GetMethodIDOrDie, GetMethodID.
  munfold. cbn. rewrite Hc. cbn. rewrite Hc.
  rewrite decide_True by assumption. reflexivity.
Qed.

Lemma read_cpu_usage_array_served w p mid :
  gThermalModule w = Some p ->
  initMethod (gCpuUsageInfoClassInfo w) = Some mid ->
  exists arr w',
    nativeGetCpuUsages w = Done arr w'
    /\ read_cpu_usage_array w' arr
       = Some (cpu_usages_spec (received (getCpuUsages_reply (remote w p)))).
Proof.
  intros Hm Hmid. do 2 eexists.
  split; [apply (nativeGetCpuUsages_bound w p mid Hm Hmid)|].
  cbv zeta.
  apply (read_cpu_usage_array_filled
           (clazz (gCpuUsageInfoClassInfo w)) (heap w)).
  reflexivity.
Qed.

(** X2. Startup composes as intended.  In a world where the runtime
    resolves the class and the service manager knows "thermal" as [p]:
    registration returns with the handle null, whatever handle was
    cached before; a query made at that point gives up, logging its
    "because of HAL error." line; [nativeInit] then binds the handle to
    [p] without logging or touching the heap; and [nativeGetCpuUsages]
    after that returns one slot per core of the service's reply. *)
Theorem X2_startup_sequence (w : World) (p : IThermalProxy) :
  descriptor_resolvable w = true ->
  hwservicemanager w "thermal" = Some p ->
  exists res w1 w2,
    register_android_server_HardwarePropertiesManagerService w = Done res w1
    /\ gThermalModule w1 = None
    /\ (forall q, exists arr w',
          run_query q w1 = Done arr w'
          /\ logcat w' = logcat w
                         ++ [mkLogLine LOG_TAG (unavailable_format q) []])
    /\ nativeInit w1 = Done tt w2
    /\ gThermalModule w2 = Some p
    /\ logcat w2 = logcat w
    /\ heap w2 = heap w
    /\ exists arr w3,
         nativeGetCpuUsages w2 = Done arr w3
         /\ read_cpu_usage_array w3 arr
            = Some (cpu_usages_spec
                      (received (getCpuUsages_reply (remote w p)))).
Proof.
  intros Hres Hreg.
  do 3 eexists. split; [apply register_returns, Hres|].
  split; [reflexivity|].
  split.
  { intros q. destruct (run_query_log q
      (set_gCpuUsageInfoClassInfo
         (mkClassInfo (Some CpuUsageInfo_class) (Some CpuUsageInfo_init))
         (set_gThermalModule None w))) as (ext & Hrun & _).
    do 2 eexists. split; [exact Hrun|]. reflexivity. }
  split; [apply (nativeInit_found _ p); [reflexivity|exact Hreg]|].
  split; [reflexivity|]. split; [reflexivity|]. split; [reflexivity|].
  lazymatch goal with
  | |- exists arr w3, nativeGetCpuUsages ?W = _ /\ _ =>
      apply (read_cpu_usage_array_served W p CpuUsageInfo_init)
  end; reflexivity.
Qed.

Lemma X2_witness :
  descriptor_resolvable (world_stale sample_service) = true
  /\ hwservicemanager (world_stale sample_service) "thermal" = Some 7%nat
  /\ gThermalModule (world_stale sample_service) = Some 3%nat
  /\ exists res w1 w2,
       register_android_server_HardwarePropertiesManagerService
         (world_stale sample_service) = Done res w1
       /\ gThermalModule w1 = None
       /\ nativeInit w1 = Done tt w2
       /\ gThermalModule w2 = Some 7%nat
       /\ exists arr w3,
            nativeGetCpuUsages w2 = Done arr w3
            /\ read_cpu_usage_array w3 arr
               = Some [Some (mkCpuUsageInfo 100 200); None].
Proof.
  split; [reflexivity|]. split; [reflexivity|]. split; [reflexivity|].
  destruct (X2_startup_sequence (world_stale sample_service) 7%nat
              eq_refl eq_refl)
    as (res & w1 & w2 & Hreg & Hnull & _ & Hinit & Hbound & _ & _ & Hq).
  exists res, w1, w2. auto.
Defined.

Lemma query_log_short (q : Query) (w : World) :
  (length (query_log q w) <= 1)%nat.
Proof.
  unfold query_log. destruct (gThermalModule w) as [p|]; [|simpl; lia].
  destruct (reaches_service q w); [|simpl; lia].
  unfold outcome_log.
  destruct (query_outcome q (remote w p)) as [st|ex].
  - destruct (is_SUCCESS (code st)); simpl; lia.
  - destruct (ex =? 0); simpl; lia.
Qed.

Lemma succeeded_outcome {A} (q : Query) (r : HidlReply A) :
  succeeded r = true -> outcome_log q (reply_outcome r) = [].
Proof.
  destruct r as [st v|ex]; simpl; [|discriminate]. now intros ->.
Qed.

Lemma run_query_readable (q : Query) (w : World) :
  exists r w',
    run_query q w = Done (Some r) w'
    /\ heap w !! r = None
    /\ pendingException w' = pendingException w
    /\ match q with
       | GetCpuUsages =>
           exists slots, read_cpu_usage_array w' (Some r) = Some slots
       | _ => exists vs, read_float_array w' (Some r) = Some vs
       end.
Proof.
  exists (length (heap w)).
  assert (Hfresh : heap w !! length (heap w) = None)
    by (apply lookup_ge_None_2; lia).
  destruct (gThermalModule w) as [p|] eqn:Hm; destruct q as [|type source|];
    cbn [run_query].
  - eexists. split; [apply nativeGetFanSpeeds_bound, Hm|].
    cbv zeta. split; [exact Hfresh|]. split; [reflexivity|].
    eexists. apply read_float_array_new.
  - eexists. split; [apply nativeGetDeviceTemperatures_bound, Hm|].
    cbv zeta. split; [exact Hfresh|]. split; [reflexivity|].
    eexists. apply read_float_array_new.
  - destruct (initMethod (gCpuUsageInfoClassInfo w)) as [mid|] eqn:Hmid.
    + eexists. split; [apply (nativeGetCpuUsages_bound w p mid Hm Hmid)|].
      cbv zeta. split; [exact Hfresh|]. split; [reflexivity|].
      eexists.
      apply (read_cpu_usage_array_filled
               (clazz (gCpuUsageInfoClassInfo w)) (heap w)).
      reflexivity.
    + eexists. split; [apply nativeGetCpuUsages_degraded; auto|].
      split; [exact Hfresh|]. split; [reflexivity|].
      eexists. apply read_cpu_usage_array_new_empty.
  - eexists. split; [apply nativeGetFanSpeeds_unbound, Hm|].
    split; [exact Hfresh|]. split; [reflexivity|].
    eexists. apply read_float_array_new.
  - eexists. split; [apply nativeGetDeviceTemperatures_unbound, Hm|].
    split; [exact Hfresh|]. split; [reflexivity|].
    eexists. apply read_float_array_new.
  - eexists. split; [apply nativeGetCpuUsages_degraded; auto|].
    split; [exact Hfresh|]. split; [reflexivity|].
    eexists. apply read_cpu_usage_array_new_empty.
Qed.

(** X3. In every world, each of the three queries returns normally and
    hands back a non-null reference that was not in use before the call
    and that designates a readable array of the query's kind (floats
    for fan speeds and temperatures, CPU usage slots otherwise); no
    query ever leaves a Java exception pending. *)
Theorem X3_query_always_returns_array (q : Query) (w : World) :
  exists r w',
    run_query q w = Done (Some r) w'
    /\ heap w !! r = None
    /\ is_Some (heap w' !! r)
    /\ pendingException w' = pendingException w
    /\ match q with
       | GetCpuUsages =>
           exists slots, read_cpu_usage_array w' (Some r) = Some slots
       | _ => exists vs, read_float_array w' (Some r) = Some vs
       end.
Proof.
  destruct (run_query_readable q w) as (r & w' & Hrun & Hfresh & Hexc & Hread).
  exists r, w'. split; [exact Hrun|]. split; [exact Hfresh|].
  split; [|split; [exact Hexc|exact Hread]].
  destruct q as [|type source|]; destruct Hread as (x & Hx);
    unfold read_float_array, read_cpu_usage_array in Hx;
    destruct (heap w' !! r); eauto; discriminate.
Qed.

(** X4. The diagnostics of a query: it appends to the log exactly the
    lines of [query_log], never more than one.  That line is the
    "because of HAL error." line when the query gives up before calling
    (handle unbound, or constructor unresolved for the CPU usages), the
    "HAL error: %s" line with the service's debug message when the
    reply's code is not SUCCESS, the "failed status: %d" line with the
    exception code when the transport fails; a query that reaches the
    service and gets a SUCCESS reply logs nothing. *)
Theorem X4_query_diagnostics (q : Query) (w : World) :
  exists arr w',
    run_query q w = Done arr w'
    /\ logcat w' = logcat w ++ query_log q w
    /\ (length (query_log q w) <= 1)%nat
    /\ (forall p,
          gThermalModule w = Some p ->
          reaches_service q w = true ->
          reply_succeeded q (remote w p) = true ->
          logcat w' = logcat w)
    /\ (forall p status,
          gThermalModule w = Some p ->
          reaches_service q w = true ->
          query_outcome q (remote w p) = inl status ->
          code status = FAILURE ->
          logcat w' = logcat w
                      ++ [mkLogLine LOG_TAG (callback_format q)
                                    [ArgS (debugMessage status)]])
    /\ (forall p ex,
          gThermalModule w = Some p ->
          reaches_service q w = true ->
          query_outcome q (remote w p) = inr ex ->
          ex <> 0 ->
          logcat w' = logcat w
                      ++ [mkLogLine LOG_TAG (status_format q) [ArgD ex]])
    /\ (reaches_service q w = false ->
        logcat w' = logcat w
                    ++ [mkLogLine LOG_TAG (unavailable_format q) []]).
Proof.
  destruct (run_query_log q w) as (ext & Hrun & _).
  do 2 eexists. split; [exact Hrun|].
  cbn [logcat set_heap set_logcat].
  split; [reflexivity|]. split; [apply query_log_short|].
  split; [|split; [|split]].
  - intros p Hm Hreach Hok. unfold query_log. rewrite Hm, Hreach.
    destruct q; cbn [query_outcome reply_succeeded] in *;
      rewrite succeeded_outcome by assumption; apply app_nil_r.
  - intros p st Hm Hreach Hout Hcode. unfold query_log.
    rewrite Hm, Hreach, Hout. unfold outcome_log. now rewrite Hcode.
  - intros p ex Hm Hreach Hout Hex. unfold query_log.
    rewrite Hm, Hreach, Hout. unfold outcome_log.
    now destruct (Z.eqb_spec ex 0).
  - intros Hgive. unfold query_log. rewrite Hgive.
    now destruct (gThermalModule w).
Qed.

Lemma nativeInit_times_missing (n : nat) (w : World) :
  gThermalModule w = None ->
  hwservicemanager w "thermal" = None ->
  nativeInit_times n w =
  Done tt (set_logcat
             (logcat w ++
              replicate n
                (mkLogLine LOG_TAG "Unable to get Thermal service." [])) w).
Proof.
  revert w. induction n as [|n IH]; intros w Hm Hs.
  - cbn. rewrite app_nil_r. now destruct w.
  - cbn [nativeInit_times].
    erewrite bind_Done by (apply nativeInit_missing; assumption).
    rewrite IH by assumption.
    cbn [logcat set_logcat]. rewrite <- app_assoc. reflexivity.
Qed.

(** X5. While the handle is unbound and the service manager does not
    know "thermal", a call of [nativeInit] appends the one line "Unable
    to get Thermal service." and changes nothing else; N calls in a row
    append N such lines and leave the handle unbound. *)
Theorem X5_failed_initialize_only_logs (n : nat) (w : World) :
  gThermalModule w = None ->
  hwservicemanager w "thermal" = None ->
  exists w',
    nativeInit_times n w = Done tt w'
    /\ w' = set_logcat
              (logcat w ++
               replicate n
                 (mkLogLine LOG_TAG "Unable to get Thermal service." [])) w
    /\ gThermalModule w' = None
    /\ heap w' = heap w
    /\ pendingException w' = pendingException w.
Proof.
  intros Hm Hs. eexists.
  split; [apply nativeInit_times_missing; assumption|].
  split; [reflexivity|]. cbn. auto.
Qed.

Lemma X5_witness :
  gThermalModule world_no_service = None
  /\ hwservicemanager world_no_service "thermal" = None
  /\ exists w',
       nativeInit_times 2 world_no_service = Done tt w'
       /\ logcat w' =
          [mkLogLine LOG_TAG "Unable to get Thermal service." [];
           mkLogLine LOG_TAG "Unable to get Thermal service." []]
       /\ gThermalModule w' = None.
Proof.
  split; [reflexivity|]. split; [reflexivity|].
  destruct (X5_failed_initialize_only_logs 2 world_no_service
              eq_refl eq_refl)
    as (w' & Hrun & Hw & Hm & _).
  exists w'. split; [exact Hrun|]. split; [|exact Hm].
  rewrite Hw. reflexivity.
Defined.

(** X6. A failed [nativeInit] is not final.  After a call that found no
    service the handle is still unbound, and once the service manager
    knows "thermal" as [p], the next call binds the handle to [p] and
    logs nothing more. *)
Theorem X6_initialize_retries_lookup
    (w : World) (reg : string -> option IThermalProxy) (p : IThermalProxy) :
  gThermalModule w = None ->
  hwservicemanager w "thermal" = None ->
  reg "thermal" = Some p ->
  exists w1 w2,
    nativeInit w = Done tt w1
    /\ gThermalModule w1 = None
    /\ nativeInit (set_hwservicemanager reg w1) = Done tt w2
    /\ gThermalModule w2 = Some p
    /\ logcat w2 = logcat w1.
Proof.
  intros Hm Hs Hreg.
  do 2 eexists. split; [apply nativeInit_missing; assumption|].
  split; [exact Hm|].
  split; [apply (nativeInit_found _ p); [exact Hm|exact Hreg]|].
  split; reflexivity.
Qed.

Lemma X6_witness :
  gThermalModule world_no_service = None
  /\ hwservicemanager world_no_service "thermal" = None
  /\ exists w1 w2,
       nativeInit world_no_service = Done tt w1
       /\ gThermalModule w1 = None
       /\ nativeInit (set_hwservicemanager (fun _ => Some 7%nat) w1)
          = Done tt w2
       /\ gThermalModule w2 = Some 7%nat
       /\ logcat w2 = logcat w1.
Proof.
  split; [reflexivity|]. split; [reflexivity|].
  exact (X6_initialize_retries_lookup world_no_service
           (fun _ => Some 7%nat) 7%nat eq_refl eq_refl eq_refl).
Defined.

(** *** Results outlive later calls *)

Lemma read_float_array_mono w w' a vs :
  heap w `prefix_of` heap w' ->
  read_float_array w a = Some vs ->
  read_float_array w' a = Some vs.
Proof.
  intros Hpre. unfold read_float_array.
  destruct a as [r|]; [|discriminate].
  destruct (heap w !! r) as [o|] eqn:Hr; [|discriminate].
  assert (Hr' : heap w' !! r = Some o)
    by exact (prefix_lookup_Some _ _ _ _ Hr Hpre).
  now rewrite Hr'.
Qed.

Lemma read_cpu_usage_mono w w' o x :
  heap w `prefix_of` heap w' ->
  read_cpu_usage w o = Some x ->
  read_cpu_usage w' o = Some x.
Proof.
  intros Hpre. unfold read_cpu_usage.
  destruct o as [r|]; [|trivial].
  destruct (heap w !! r) as [obj|] eqn:Hr; [|discriminate].
  assert (Hr' : heap w' !! r = Some obj)
    by exact (prefix_lookup_Some _ _ _ _ Hr Hpre).
  now rewrite Hr'.
Qed.

Lemma read_cpu_usage_array_mono w w' a slots :
  heap w `prefix_of` heap w' ->
  read_cpu_usage_array w a = Some slots ->
  read_cpu_usage_array w' a = Some slots.
Proof.
  intros Hpre. unfold read_cpu_usage_array.
  destruct a as [r|]; [|discriminate].
  destruct (heap w !! r) as [obj|] eqn:Hr; [|discriminate].
  assert (Hr' : heap w' !! r = Some obj)
    by exact (prefix_lookup_Some _ _ _ _ Hr Hpre).
  rewrite Hr'.
  destruct obj as [| ec elems |]; try discriminate.
  rewrite !mapM_Some. intros H.
  eapply Forall2_impl; [exact H|].
  intros o x Hx. now apply (read_cpu_usage_mono w).
Qed.

Lemma run_query_evolves (q : Query) (w : World) :
  exists r w',
    run_query q w = Done (Some r) w'
    /\ r = length (heap w)
    /\ (length (heap w) < length (heap w'))%nat
    /\ evolves w w'
    /\ gThermalModule w' = gThermalModule w.
Proof.
  destruct (run_query_log q w) as (ext & Hrun & Hext).
  do 2 eexists. split; [exact Hrun|]. split; [reflexivity|].
  cbn [heap set_heap].
  split.
  { rewrite length_app. destruct ext; [contradiction|]. simpl. lia. }
  split; [|reflexivity].
  unfold evolves. cbn.
  split; [now apply prefix_app_r|].
  split; [now apply prefix_app_r|]. auto 10.
Qed.

(** X7. The array a query returned stays as it is when another query
    runs afterwards: the second call returns a different reference, and
    the first array reads back in the final world exactly as it did
    when it was returned. *)
Theorem X7_earlier_results_stay_valid (q1 q2 : Query) (w : World) :
  exists a1 w1 a2 w2,
    run_query q1 w = Done a1 w1
    /\ run_query q2 w1 = Done a2 w2
    /\ a1 <> a2
    /\ match q1 with
       | GetCpuUsages =>
           exists slots,
             read_cpu_usage_array w1 a1 = Some slots
             /\ read_cpu_usage_array w2 a1 = Some slots
       | _ =>
           exists vs,
             read_float_array w1 a1 = Some vs
             /\ read_float_array w2 a1 = Some vs
       end.
Proof.
  destruct (run_query_evolves q1 w) as (r1 & w1 & Hrun1 & Hr1 & Hlt1 & _).
  destruct (run_query_evolves q2 w1)
    as (r2 & w2 & Hrun2 & Hr2 & _ & (Hpre & _) & _).
  exists (Some r1), w1, (Some r2), w2.
  split; [exact Hrun1|]. split; [exact Hrun2|].
  split; [intros H; injection H as H; lia|].
  destruct (run_query_readable q1 w)
    as (r & w' & Hrun & _ & _ & Hread).
  rewrite Hrun1 in Hrun. injection Hrun as <- <-.
  destruct q1 as [|type source|].
  - destruct Hread as (vs & Hvs). exists vs.
    split; [exact Hvs|]. now apply (read_float_array_mono w1).
  - destruct Hread as (vs & Hvs). exists vs.
    split; [exact Hvs|]. now apply (read_float_array_mono w1).
  - destruct Hread as (slots & Hs). exists slots.
    split; [exact Hs|]. now apply (read_cpu_usage_array_mono w1).
Qed.

(** *** Sequences of calls *)

Lemma evolves_refl (w : World) : evolves w w.
Proof. unfold evolves. auto 10. Qed.

Lemma evolves_trans (w1 w2 w3 : World) :
  evolves w1 w2 -> evolves w2 w3 -> evolves w1 w3.
Proof.
  unfold evolves.
  intros (Hh & Hl & He & Hd & Hs & Hr & Hm)
         (Hh' & Hl' & He' & Hd' & Hs' & Hr' & Hm').
  split; [etransitivity; eassumption|].
  split; [etransitivity; eassumption|].
  repeat split; try congruence. auto.
Qed.

Lemma nativeInit_evolves (w : World) :
  exists w',
    nativeInit w = Done tt w'
    /\ evolves w w'
    /\ gThermalModule w' =
       match gThermalModule w with
       | Some p => Some p
       | None => hwservicemanager w "thermal"
       end.
Proof.
  destruct (gThermalModule w) as [p|] eqn:Hm.
  - exists w. split; [apply (nativeInit_bound w p Hm)|].
    split; [apply evolves_refl|exact Hm].
  - destruct (hwservicemanager w "thermal") as [p|] eqn:Hs.
    + eexists. split; [apply (nativeInit_found w p Hm Hs)|].
      split; [|reflexivity].
      unfold evolves. cbn. rewrite Hm. repeat split; auto; discriminate.
    + eexists. split; [apply (nativeInit_missing w Hm Hs)|].
      split; [|exact Hm].
      unfold evolves. cbn. repeat split; auto.
      now apply prefix_app_r.
Qed.

Lemma run_native_evolves (n : Native) (w : World) :
  exists w',
    run_native n w = Done tt w'
    /\ evolves w w'
    /\ gThermalModule w' =
       match n, gThermalModule w with
       | CallInit, None => hwservicemanager w "thermal"
       | _, m => m
       end.
Proof.
  destruct n as [|q]; cbn [run_native].
  - destruct (nativeInit_evolves w) as (w' & Hrun & Hev & Hm).
    exists w'. split; [exact Hrun|]. split; [exact Hev|].
    rewrite Hm. now destruct (gThermalModule w).
  - destruct (run_query_evolves q w) as (r & w' & Hrun & _ & _ & Hev & Hm).
    exists w'. erewrite bind_Done by exact Hrun. auto.
Qed.

Lemma run_natives_evolves (ns : list Native) (w : World) :
  exists w', run_natives ns w = Done tt w' /\ evolves w w'.
Proof.
  revert w. induction ns as [|n ns IH]; intros w.
  - exists w. split; [reflexivity|apply evolves_refl].
  - destruct (run_native_evolves n w) as (w1 & Hrun1 & Hev1 & _).
    destruct (IH w1) as (w' & Hrun & Hev).
    exists w'. cbn [run_natives]. erewrite bind_Done by exact Hrun1.
    split; [exact Hrun|]. now apply (evolves_trans w w1).
Qed.

(** X8. Any sequence of calls of the four natives, in any order and of
    any length, runs to its end without a crash, and over the whole
    sequence: a handle that was bound stays the same handle, the class
    descriptor is not written, no Java exception becomes pending, and
    the heap and the log only grow (what was there is kept). *)
Theorem X8_call_sequences_keep_invariants (ns : list Native) (w : World) :
  exists w',
    run_natives ns w = Done tt w'
    /\ (forall p, gThermalModule w = Some p -> gThermalModule w' = Some p)
    /\ gCpuUsageInfoClassInfo w' = gCpuUsageInfoClassInfo w
    /\ pendingException w' = pendingException w
    /\ heap w `prefix_of` heap w'
    /\ logcat w `prefix_of` logcat w'.
Proof.
  destruct (run_natives_evolves ns w)
    as (w' & Hrun & Hh & Hl & He & Hd & _ & _ & Hm).
  exists w'. auto 10.
Qed.

(** X9. In a world where the service manager knows "thermal" as [p], a
    sequence of calls that contains [nativeInit] anywhere ends with a
    bound handle: the handle cached at the start if there was one, [p]
    otherwise.  Queries before the [nativeInit] do not prevent it. *)
Theorem X9_sequence_with_initialize_binds
    (ns : list Native) (w : World) (p : IThermalProxy) :
  CallInit ∈ ns ->
  hwservicemanager w "thermal" = Some p ->
  exists w',
    run_natives ns w = Done tt w'
    /\ gThermalModule w' =
       match gThermalModule w with
       | Some p0 => Some p0
       | None => Some p
       end.
Proof.
  revert w. induction ns as [|n ns IH]; intros w Hin Hs.
  - now apply elem_of_nil in Hin.
  - destruct (run_native_evolves n w) as (w1 & Hrun1 & Hev1 & Hm1).
    cbn [run_natives]. erewrite bind_Done by exact Hrun1.
    destruct (run_natives_evolves ns w1) as (w' & Hrun & Hev).
    destruct Hev1 as (_ & _ & _ & _ & Hs1 & _ & _).
    destruct (gThermalModule w1) as [p1|] eqn:Hb.
    + (* bound after the first call: it stays so *)
      exists w'. split; [exact Hrun|].
      destruct Hev as (_ & _ & _ & _ & _ & _ & Hkeep).
      rewrite (Hkeep p1 Hb).
      destruct n, (gThermalModule w); congruence.
    + (* still unbound: the first call was a query *)
      destruct n as [|q].
      * destruct (gThermalModule w); [discriminate|]. congruence.
      * apply elem_of_cons in Hin as [Hin|Hin]; [discriminate|].
        destruct (IH w1 Hin) as (w2 & Hrun2 & Hm2); [congruence|].
        exists w2. split; [exact Hrun2|].
        rewrite Hm2, Hb. now rewrite <- Hm1.
Qed.

Lemma X9_witness :
  CallInit ∈ [CallQuery GetFanSpeeds; CallInit; CallQuery GetCpuUsages]
  /\ hwservicemanager (world_registered sample_service) "thermal"
     = Some 7%nat
  /\ exists w',
       run_natives [CallQuery GetFanSpeeds; CallInit; CallQuery GetCpuUsages]
                   (world_registered sample_service) = Done tt w'
       /\ gThermalModule w' = Some 7%nat.
Proof.
  split; [apply list_elem_of_further, list_elem_of_here|].
  split; [reflexivity|].
  exact (X9_sequence_with_initialize_binds
           [CallQuery GetFanSpeeds; CallInit; CallQuery GetCpuUsages]
           (world_registered sample_service) 7%nat
           (list_elem_of_further _ _ _ (list_elem_of_here _ _)) eq_refl).
Defined.

(** *** Counters on their way to the constructor *)

Lemma as_jlong_bits (x : Z) :
  0 <= x < 2 ^ 64 ->
  as_jlong x mod 2 ^ 64 = x
  /\ - 2 ^ 63 <= as_jlong x < 2 ^ 63
  /\ (x < 2 ^ 63 -> as_jlong x = x)
  /\ (2 ^ 63 <= x -> as_jlong x = x - 2 ^ 64).
Proof.
  intros Hx. unfold as_jlong. rewrite (Z.mod_small x) by lia. cbv zeta.
  destruct (Z.ltb_spec x (2 ^ 63)) as [Hlt|Hge].
  - rewrite Z.mod_small by lia. lia.
  - replace ((x - 2 ^ 64) mod 2 ^ 64) with x
      by (apply Z.mod_unique with (q := -1); lia).
    lia.
Qed.

(** X10. The counters of an online core reach the [(JJ)V] constructor
    with their 64 bits intact.  For counters in the unsigned 64-bit
    range, the object in the core's slot holds values in the [jlong]
    range that agree with the counters modulo [2^64]: a counter below
    [2^63] arrives unchanged, and one from [2^63] on arrives as the
    negative number [counter - 2^64]. *)
Theorem X10_counters_keep_their_64_bits
    (w : World) (p : IThermalProxy) (mid : MethodRef)
    (status : ThermalStatus) (usages : list CpuUsage)
    (i : nat) (c : CpuUsage) :
  gThermalModule w = Some p ->
  initMethod (gCpuUsageInfoClassInfo w) = Some mid ->
  getCpuUsages_reply (remote w p) = Delivered status usages ->
  code status = SUCCESS ->
  usages !! i = Some c ->
  cu_isOnline c = true ->
  0 <= cu_active c < 2 ^ 64 ->
  0 <= cu_total c < 2 ^ 64 ->
  exists arr w' slots o,
    nativeGetCpuUsages w = Done arr w'
    /\ read_cpu_usage_array w' arr = Some slots
    /\ slots !! i = Some (Some o)
    /\ mActive o mod 2 ^ 64 = cu_active c
    /\ mTotal o mod 2 ^ 64 = cu_total c
    /\ - 2 ^ 63 <= mActive o < 2 ^ 63
    /\ - 2 ^ 63 <= mTotal o < 2 ^ 63
    /\ (cu_active c < 2 ^ 63 -> mActive o = cu_active c)
    /\ (2 ^ 63 <= cu_active c -> mActive o = cu_active c - 2 ^ 64)
    /\ (cu_total c < 2 ^ 63 -> mTotal o = cu_total c)
    /\ (2 ^ 63 <= cu_total c -> mTotal o = cu_total c - 2 ^ 64).
Proof.
  intros Hm Hmid Hr Hs Hi Hon Ha Ht.
  destruct (read_cpu_usage_array_served w p mid Hm Hmid)
    as (arr & w' & Hrun & Hread).
  rewrite Hr in Hread. unfold received in Hread. rewrite Hs in Hread.
  cbn [is_SUCCESS] in Hread.
  exists arr, w', (cpu_usages_spec usages),
         (mkCpuUsageInfo (as_jlong (cu_active c)) (as_jlong (cu_total c))).
  split; [exact Hrun|]. split; [exact Hread|].
  split; [rewrite cpu_usages_spec_lookup, Hi, Hon; reflexivity|].
  cbn [mActive mTotal].
  destruct (as_jlong_bits (cu_active c) Ha) as (A1 & A2 & A3 & A4).
  destruct (as_jlong_bits (cu_total c) Ht) as (T1 & T2 & T3 & T4).
  auto 12.
Qed.

Lemma X10_witness :
  gThermalModule (world_bound large_counter_service) = Some 7%nat
  /\ getCpuUsages_reply (remote (world_bound large_counter_service) 7%nat)
     = Delivered status_ok large_usages
  /\ large_usages !! 0%nat = Some (mkCpuUsage "cpu0" (2 ^ 64 - 1) (2 ^ 63) true)
  /\ exists arr w' slots o,
       nativeGetCpuUsages (world_bound large_counter_service) = Done arr w'
       /\ read_cpu_usage_array w' arr = Some slots
       /\ slots !! 0%nat = Some (Some o)
       /\ mActive o = -1
       /\ mTotal o = - 2 ^ 63.
Proof.
  split; [reflexivity|]. split; [reflexivity|]. split; [reflexivity|].
  assert (Ha : 0 <= 2 ^ 64 - 1 < 2 ^ 64) by lia.
  assert (Ht : 0 <= 2 ^ 63 < 2 ^ 64) by lia.
  destruct (X10_counters_keep_their_64_bits
              (world_bound large_counter_service) 7%nat CpuUsageInfo_init
              status_ok large_usages 0
              (mkCpuUsage "cpu0" (2 ^ 64 - 1) (2 ^ 63) true)
              eq_refl eq_refl eq_refl eq_refl eq_refl eq_refl Ha Ht)
    as (arr & w' & slots & o & Hrun & Hread & Hslot & _ & _ & _ & _
        & _ & Hact & _ & Htot).
  exists arr, w', slots, o.
  split; [exact Hrun|]. split; [exact Hread|]. split; [exact Hslot|].
  split.
  - rewrite Hact; [reflexivity|]. discriminate.
  - rewrite Htot; [reflexivity|]. discriminate.
Defined.

(** *** Queries do not depend on one another *)

Lemma read_cpu_usage_array_new_float w h l vs :
  read_cpu_usage_array
    (set_heap (heap w ++ [FloatArray vs]) (set_logcat l h))
    (Some (length (heap w))) = None.
Proof.
  unfold read_cpu_usage_array. cbn [heap set_heap].
  now rewrite list_lookup_middle.
Qed.

Lemma read_float_array_cpu_heap w cls h0 (l : list CpuUsage) :
  heap w = cpu_heap cls h0 l 0 ->
  read_float_array w (Some (length h0)) = None.
Proof.
  intros Hh. unfold read_float_array. rewrite Hh. unfold cpu_heap.
  now rewrite list_lookup_middle.
Qed.

Lemma read_float_array_new_objects w h l cls :
  read_float_array
    (set_heap (heap w ++ [ObjectArray cls []]) (set_logcat l h))
    (Some (length (heap w))) = None.
Proof.
  unfold read_float_array. cbn [heap set_heap].
  now rewrite list_lookup_middle.
Qed.

(** The contents of a query's result depend on the world only through
    the handle, the class descriptor and the service's replies. *)
Lemma run_query_same_content (q : Query) (w v : World) :
  gThermalModule v = gThermalModule w ->
  gCpuUsageInfoClassInfo v = gCpuUsageInfoClassInfo w ->
  remote v = remote w ->
  exists a w' b v',
    run_query q w = Done a w'
    /\ run_query q v = Done b v'
    /\ read_float_array v' b = read_float_array w' a
    /\ read_cpu_usage_array v' b = read_cpu_usage_array w' a.
Proof.
  intros Hm Hd Hr.
  destruct (gThermalModule w) as [p|] eqn:Hw; destruct q as [|type source|];
    cbn [run_query].
  - do 4 eexists.
    split; [apply (nativeGetFanSpeeds_bound w p Hw)|].
    split; [apply (nativeGetFanSpeeds_bound v p Hm)|].
    cbv zeta. rewrite !read_float_array_new, !read_cpu_usage_array_new_float.
    now rewrite Hr.
  - do 4 eexists.
    split; [apply (nativeGetDeviceTemperatures_bound type source w p Hw)|].
    split; [apply (nativeGetDeviceTemperatures_bound type source v p Hm)|].
    cbv zeta. rewrite !read_float_array_new, !read_cpu_usage_array_new_float.
    now rewrite Hr.
  - destruct (initMethod (gCpuUsageInfoClassInfo w)) as [mid|] eqn:Hmid.
    + assert (Hmid' : initMethod (gCpuUsageInfoClassInfo v) = Some mid)
        by now rewrite Hd.
      do 4 eexists.
      split; [apply (nativeGetCpuUsages_bound w p mid Hw Hmid)|].
      split; [apply (nativeGetCpuUsages_bound v p mid Hm Hmid')|].
      cbv zeta.
      rewrite (read_float_array_cpu_heap _
                 (clazz (gCpuUsageInfoClassInfo v)) (heap v)
                 (received (getCpuUsages_reply (remote v p)))) by reflexivity.
      rewrite (read_float_array_cpu_heap _
                 (clazz (gCpuUsageInfoClassInfo w)) (heap w)
                 (received (getCpuUsages_reply (remote w p)))) by reflexivity.
      rewrite (read_cpu_usage_array_filled
                 (clazz (gCpuUsageInfoClassInfo v)) (heap v)
                 (received (getCpuUsages_reply (remote v p)))) by reflexivity.
      rewrite (read_cpu_usage_array_filled
                 (clazz (gCpuUsageInfoClassInfo w)) (heap w)
                 (received (getCpuUsages_reply (remote w p)))) by reflexivity.
      now rewrite Hr.
    + assert (Hmid' : initMethod (gCpuUsageInfoClassInfo v) = None)
        by now rewrite Hd.
      do 4 eexists.
      split; [apply nativeGetCpuUsages_degraded; auto|].
      split; [apply nativeGetCpuUsages_degraded; auto|].
      now rewrite !read_float_array_new_objects,
                  !read_cpu_usage_array_new_empty.
  - do 4 eexists.
    split; [apply (nativeGetFanSpeeds_unbound w Hw)|].
    split; [apply (nativeGetFanSpeeds_unbound v Hm)|].
    now rewrite !read_float_array_new, !read_cpu_usage_array_new_float.
  - do 4 eexists.
    split; [apply (nativeGetDeviceTemperatures_unbound type source w Hw)|].
    split; [apply (nativeGetDeviceTemperatures_unbound type source v Hm)|].
    now rewrite !read_float_array_new, !read_cpu_usage_array_new_float.
  - do 4 eexists.
    split; [apply nativeGetCpuUsages_degraded; auto|].
    split; [apply nativeGetCpuUsages_degraded; auto|].
    now rewrite !read_float_array_new_objects,
                !read_cpu_usage_array_new_empty.
Qed.

(** X11. Queries keep no state between calls.  With the service
    replying alike, the array a query returns has the same contents
    whether the query runs first or after any sequence of native calls:
    earlier queries, their log lines and the arrays they allocated make
    no difference, and a query asked twice in a row answers twice the
    same.  The one call that matters is a [nativeInit] on an unbound
    handle, which the hypothesis excludes. *)
Theorem X11_queries_keep_no_state
    (ns : list Native) (q : Query) (w : World) :
  (gThermalModule w = None -> CallInit ∉ ns) ->
  exists w1 a w2 b w',
    run_natives ns w = Done tt w1
    /\ run_query q w1 = Done a w2
    /\ run_query q w = Done b w'
    /\ read_float_array w2 a = read_float_array w' b
    /\ read_cpu_usage_array w2 a = read_cpu_usage_array w' b.
Proof.
  intros Hinit.
  assert (Hseq : exists w1,
             run_natives ns w = Done tt w1
             /\ evolves w w1
             /\ gThermalModule w1 = gThermalModule w).
  { clear q. revert w Hinit. induction ns as [|n ns IH]; intros w Hinit.
    - exists w. split; [reflexivity|]. split; [apply evolves_refl|reflexivity].
    - destruct (run_native_evolves n w) as (w0 & Hrun0 & Hev0 & Hm0).
      assert (Hsame : gThermalModule w0 = gThermalModule w).
      { rewrite Hm0. destruct n as [|q0]; [|reflexivity].
        destruct (gThermalModule w) as [p|] eqn:Hb; [reflexivity|].
        exfalso. apply (Hinit eq_refl). apply list_elem_of_here. }
      destruct (IH w0) as (w1 & Hrun1 & Hev1 & Hm1).
      { intros Hnone Hin. rewrite Hsame in Hnone.
        apply (Hinit Hnone). now apply list_elem_of_further. }
      exists w1. cbn [run_natives]. erewrite bind_Done by exact Hrun0.
      split; [exact Hrun1|].
      split; [now apply (evolves_trans w w0)|congruence]. }
  destruct Hseq as (w1 & Hrun & (_ & _ & _ & Hd & _ & Hr & _) & Hm).
  destruct (run_query_same_content q w w1 Hm Hd Hr)
    as (b & w' & a & w2 & Hb & Ha & Hf & Hc).
  exists w1, a, w2, b, w'. auto.
Qed.

Lemma X11_witness :
  (gThermalModule (world_bound sample_service) = Some 7%nat)
  /\ exists w1 a w2 b w',
       run_natives [CallQuery GetCpuUsages; CallInit;
                    CallQuery (GetDeviceTemperatures 1 1)]
                   (world_bound sample_service) = Done tt w1
       /\ run_query GetFanSpeeds w1 = Done a w2
       /\ run_query GetFanSpeeds (world_bound sample_service) = Done b w'
       /\ read_float_array w2 a = read_float_array w' b.
Proof.
  split; [reflexivity|].
  destruct (X11_queries_keep_no_state
              [CallQuery GetCpuUsages; CallInit;
               CallQuery (GetDeviceTemperatures 1 1)]
              GetFanSpeeds (world_bound sample_service))
    as (w1 & a & w2 & b & w' & Hrun & Ha & Hb & Hf & _).
  { intros H. discriminate H. }
  exists w1, a, w2, b, w'. auto.
Defined.

(** *** The constructor of the result objects *)




